(** * Frame-inspection overlay engine of the content script

    A shallow embedding of the tooltip placement function
    ([setTooltipPosition]) and of the [WebpageContentScript] class that
    drives frame inspection, followed by the properties of the design
    document that can be settled on them. *)

From Stdlib Require Import ZArith List String Bool Arith Lia.
Import ListNotations.
Open Scope string_scope.

(* ================================================================= *)
(** ** DOM token lists *)

(** [classList.contains], [classList.add] and [classList.remove] of a
    [DOMTokenList]: a token is stored once, [add] appends a token that
    is not yet there, [remove] drops every listed token. *)
Module TokenList.

Definition contains (l : list string) (c : string) : bool :=
  existsb (String.eqb c) l.

Definition add (l : list string) (c : string) : list string :=
  if contains l c then l else l ++ [c].

Definition remove (l : list string) (cs : list string) : list string :=
  filter (fun c => negb (contains cs c)) l.

End TokenList.

(* ================================================================= *)
(** ** Tooltip placement *)

Module Placement.

Local Open Scope Z_scope.

(** Values written to the [style] properties of the tooltip. Pixel
    quantities are integers; the source adds and compares plain
    numbers and appends ["px"]. *)
Inductive css : Type :=
| css_initial            (* the property was never written *)
| css_px (n : Z)         (* n + 'px' *)
| css_zero               (* `0` *)
| css_auto               (* 'auto' *)
| css_unset.             (* `unset` *)

Record Style : Type := mkStyle {
  style_maxWidth : css;
  style_top : css;
  style_left : css;
  style_right : css
}.

(** The tooltip element: its inline style, its class list, the class
    list of [firstElementChild] (absent when the tooltip has no child)
    and the two layout read-outs the function consults. *)
Record Tooltip : Type := mkTooltip {
  style : Style;
  classList : list string;
  firstElementChild : option (list string);
  offsetWidth : Z;
  offsetHeight : Z
}.

Record Rect : Type := mkRect { rect_x : Z; rect_y : Z; rect_width : Z }.

(** The frame element as the function sees it:
    [getBoundingClientRect()] and [offsetHeight]. *)
Record FrameEl : Type := mkFrameEl {
  getBoundingClientRect : Rect;
  frame_offsetHeight : Z
}.

(** [window] and [document.location.origin]. *)
Record Window : Type := mkWindow {
  innerWidth : Z;
  innerHeight : Z;
  scrollX : Z;
  scrollY : Z;
  location_origin : string
}.

(** What [style.maxWidth] holds after an assignment: a negative length
    is not a valid [max-width], the element ignores the assignment and
    the property keeps the value it had. *)
Definition accepted_maxWidth (old v : css) : css :=
  match v with
  | css_px n => if n <? 0 then old else v
  | _ => v
  end.

Definition set_maxWidth (v : css) (t : Tooltip) : Tooltip :=
  let s := style t in
  mkTooltip (mkStyle (accepted_maxWidth (style_maxWidth s) v)
                     (style_top s) (style_left s) (style_right s))
            (classList t) (firstElementChild t) (offsetWidth t) (offsetHeight t).

Definition set_top (v : css) (t : Tooltip) : Tooltip :=
  let s := style t in
  mkTooltip (mkStyle (style_maxWidth s) v (style_left s) (style_right s))
            (classList t) (firstElementChild t) (offsetWidth t) (offsetHeight t).

Definition set_left (v : css) (t : Tooltip) : Tooltip :=
  let s := style t in
  mkTooltip (mkStyle (style_maxWidth s) (style_top s) v (style_right s))
            (classList t) (firstElementChild t) (offsetWidth t) (offsetHeight t).

Definition set_right (v : css) (t : Tooltip) : Tooltip :=
  let s := style t in
  mkTooltip (mkStyle (style_maxWidth s) (style_top s) (style_left s) v)
            (classList t) (firstElementChild t) (offsetWidth t) (offsetHeight t).

(** [tooltip.classList.add(c)] *)
Definition classList_add (c : string) (t : Tooltip) : Tooltip :=
  mkTooltip (style t) (TokenList.add (classList t) c)
            (firstElementChild t) (offsetWidth t) (offsetHeight t).

(** [tooltip.firstElementChild?.classList.add(c)] *)
Definition child_add (c : string) (t : Tooltip) : Tooltip :=
  mkTooltip (style t) (classList t)
            (option_map (fun l => TokenList.add l c) (firstElementChild t))
            (offsetWidth t) (offsetHeight t).

(** [tooltip.firstElementChild?.classList.remove(...cs)] *)
Definition child_remove (cs : list string) (t : Tooltip) : Tooltip :=
  mkTooltip (style t) (classList t)
            (option_map (fun l => TokenList.remove l cs) (firstElementChild t))
            (offsetWidth t) (offsetHeight t).

Definition top_left_notch := "ps-tooltip-top-left-notch".
Definition top_right_notch := "ps-tooltip-top-right-notch".
Definition bottom_left_notch := "ps-tooltip-bottom-left-notch".
Definition bottom_right_notch := "ps-tooltip-bottom-right-notch".

(** The argument list of every [classList.remove] call of the
    function, in the order the source writes it. *)
Definition notch_classes : list string :=
  [top_right_notch; top_left_notch; bottom_left_notch; bottom_right_notch].

(** What one call did: the tooltip after it ([None] for a null
    tooltip, which has nothing to write to) and how many times the
    frame's geometry was read through [getBoundingClientRect]. *)
Record Effect : Type := mkEffect {
  after : option Tooltip;
  geometryReads : nat
}.

(** The rectangle destructured at the top of the function, with the
    literal the source uses when there is no frame. *)
Definition frameRect (frame : option FrameEl) : Rect :=
  match frame with
  | Some f => getBoundingClientRect f
  | None => mkRect (-1) (-1) (-1)
  end.

Definition reads (frame : option FrameEl) : nat :=
  match frame with Some _ => 1%nat | None => 0%nat end.

(** [document.location.origin === selectedFrame] *)
Definition same_origin (w : Window) (selectedFrame : option string) : bool :=
  match selectedFrame with
  | Some o => String.eqb (location_origin w) o
  | None => false
  end.

(** The part of the function that needs the frame: the placement
    above the frame, the placement below it and the fall-through. *)
Definition placeAtFrame (w : Window) (f : FrameEl) (t : Tooltip) : Tooltip :=
  let frameX := rect_x (getBoundingClientRect f) in
  let frameY := rect_y (getBoundingClientRect f) in
  let frameWidth := rect_width (getBoundingClientRect f) in
  if (offsetHeight t <? frameY) && (1 <=? frameY - offsetHeight t) then
    if (innerWidth w <? frameX + offsetWidth t) && (0 <? frameX - offsetWidth t) then
      child_add bottom_right_notch
        (child_remove notch_classes
          (set_top (css_px (frameY - offsetHeight t + scrollY w))
            (set_left (css_px (frameX - offsetWidth t)) t)))
    else if (frameX + offsetWidth t <? innerWidth w) && (frameX - offsetWidth t <? 0) then
      child_add bottom_left_notch
        (child_remove notch_classes
          (set_top (css_px (frameY - offsetHeight t + scrollY w))
            (set_right css_unset
              (set_left (css_px (frameX + scrollX w)) t))))
    else
      let leftOverWidth := offsetWidth t - (innerWidth w - frameX) in
      child_add bottom_left_notch
        (child_remove notch_classes
          (set_top (css_px (frameY - offsetHeight t + scrollY w))
            (set_maxWidth (css_px (frameWidth - leftOverWidth))
              (set_left (if frameX <? 0 then css_px 0
                         else css_px (frameX + scrollX w)) t))))
  else if frameY + offsetHeight t <? innerHeight w then
    if (0 <? frameX + frameWidth - innerWidth w) && (innerWidth w <? frameX + offsetWidth t) then
      child_add top_right_notch
        (child_remove notch_classes
          (set_top (css_px (frameY + frame_offsetHeight f + scrollY w))
            (set_right (css_px (frameX + frameWidth))
              (set_left css_unset t))))
    else if (frameX + frameWidth - innerWidth w <? 0) && (frameX + offsetWidth t <? innerWidth w) then
      child_add top_left_notch
        (child_remove notch_classes
          (set_top (css_px (frameY + frame_offsetHeight f + scrollY w))
            (set_right css_unset
              (set_left (css_px (frameX + scrollX w)) t))))
    else
      let leftOverWidth := offsetWidth t - (innerWidth w - frameX) in
      child_add top_left_notch
        (child_remove notch_classes
          (set_top (css_px (frameY + frame_offsetHeight f + scrollY w))
            (set_maxWidth (css_px (frameWidth - leftOverWidth))
              (set_left (if frameX <? 0 then css_px 0
                         else css_px (frameX + scrollX w)) t))))
  else
    set_top (css_px frameY) t.

(** The tooltip pinned to the viewport, as the no-frame and the
    hidden-frame branches write it. *)
Definition pinTopRight (t : Tooltip) : Tooltip :=
  child_add top_left_notch
    (set_right (css_px 30)
      (set_left css_auto
        (set_top css_zero
          (classList_add "ps-fixed" t)))).

Definition setTooltipPosition (w : Window) (tooltip : option Tooltip)
    (frame : option FrameEl) (isHiddenFrame : bool)
    (selectedFrame : option string) : Effect :=
  match tooltip with
  | None => mkEffect None 0%nat
  | Some t =>
      let r := frameRect frame in
      let t := set_maxWidth (css_px (rect_width r - 40)) t in
      let t := set_top (css_px (rect_y r + scrollY w)) t in
      let t := set_left (css_px (rect_x r + scrollX w)) t in
      let t' :=
        match frame with
        | None => pinTopRight t
        | Some f =>
            if isHiddenFrame then pinTopRight t
            else if same_origin w selectedFrame then
              child_add top_left_notch
                (classList_add "ps-fixed" (set_top (css_px 5) t))
            else placeAtFrame w f t
        end in
      mkEffect (Some t') (reads frame)
  end.

(** How many of the four notch classes the tooltip's first child
    carries. *)
Definition activeNotches (t : Tooltip) : nat :=
  match firstElementChild t with
  | None => 0%nat
  | Some l => List.length (filter (TokenList.contains l) notch_classes)
  end.

End Placement.

(* ================================================================= *)
(** ** The content script *)

Module Controller.

(** A DOM element is known by its identity; what the script reads
    from it is answered by the page (see [Env]). *)
Definition Frame := nat.

(** The port handed over by [chrome.runtime.onConnect]. *)
Definition Port := nat.

(** Inbound message ([ResponseType]): [selectedFrame] and
    [removeAllFramePopovers] are optional properties. *)
Record ResponseType : Type := mkResponse {
  isInspecting_r : bool;
  selectedFrame : option string;
  removeAllFramePopovers : option bool
}.

(** Outbound messages, one constructor per object literal posted. *)
Inductive OutMsg : Type :=
| BodyHover                      (* { attributes: { iframeOrigin: '' } } *)
| FrameHover (iframeOrigin : string) (isNullSetFromHover : bool).

(** The page and the platform at the moment an event is handled:
    everything the script reads through a helper whose code is not
    part of the class. *)
Record Env : Type := mkEnv {
  (* ./constants and ../constants *)
  TOOLTIP_CLASS : string;
  WEBPAGE_PORT_NAME : string;
  (* ./popovers *)
  findSelectedFrameElements : string -> list Frame;
  (* ./utils *)
  isElementVisibleInViewport : option Frame -> bool -> bool;
  isFrameHidden : Frame -> bool;
  (* DOM *)
  clientWidth : Frame -> Z;
  document_hidden : bool;
  (* new URL(src).origin, [None] when the constructor throws *)
  url_origin : string -> option string;
  (* chrome.runtime?.id is set *)
  runtime_id : bool;
  (* port.postMessage throws *)
  postMessage_throws : bool
}.

(** Popover nodes appended to the document. *)
Inductive Popover : Type :=
| Overlay (node : nat) (frame : Frame)
| Tooltip (node : nat) (frame : option Frame)
          (numberOfVisibleFrames numberOfHiddenFrames : nat).

(** The two [updatePosition] closures. Each evaluation of the arrow
    function makes a new function object, told apart by [cb_id]. *)
Inductive Reposition : Type :=
| RepositionOverlay (overlay : option nat) (frame : Frame)
| RepositionTooltip (tooltip : option nat) (frame : option Frame)
                    (selectedFrame : option string).

Record Callback : Type := mkCallback { cb_id : nat; cb_body : Reposition }.

(** Listeners bound by [addEventListeners]. The handlers are the two
    bound methods, created once in the constructor. *)
Inductive Target : Type := Document | DocElement.
Inductive Handler : Type := HandleHoverEvent | HandleMouseMove.
Record Binding : Type := mkBinding {
  b_target : Target; b_type : string; b_handler : Handler
}.

(** The instance fields of [WebpageContentScript] followed by the
    part of the document and of the platform the class writes to. *)
Record State : Type := mkState {
  port : option Port;
  isInspecting : bool;
  isHoveringOverPage : bool;
  bodyHoverStateSent : bool;
  scrollEventListeners : list Callback;
  hoveredFrame : option Frame;
  (* document *)
  listeners : list Binding;        (* document and documentElement *)
  windowScroll : list Callback;    (* window 'scroll' listeners *)
  popovers : list Popover;
  highlighting : bool;
  (* traces *)
  posted : list OutMsg;            (* port.postMessage *)
  scrolledIntoView : list nat;     (* firstToolTip.scrollIntoView *)
  discovered : list string;        (* findSelectedFrameElements *)
  fresh : nat                      (* next object identity *)
}.

Definition initial : State :=
  mkState None false false false [] None [] [] [] false [] [] [] 0.

(** *** Field updates *)

Definition set_port v s :=
  mkState v (isInspecting s) (isHoveringOverPage s) (bodyHoverStateSent s)
    (scrollEventListeners s) (hoveredFrame s) (listeners s) (windowScroll s)
    (popovers s) (highlighting s) (posted s) (scrolledIntoView s)
    (discovered s) (fresh s).
Definition set_isInspecting v s :=
  mkState (port s) v (isHoveringOverPage s) (bodyHoverStateSent s)
    (scrollEventListeners s) (hoveredFrame s) (listeners s) (windowScroll s)
    (popovers s) (highlighting s) (posted s) (scrolledIntoView s)
    (discovered s) (fresh s).
Definition set_isHoveringOverPage v s :=
  mkState (port s) (isInspecting s) v (bodyHoverStateSent s)
    (scrollEventListeners s) (hoveredFrame s) (listeners s) (windowScroll s)
    (popovers s) (highlighting s) (posted s) (scrolledIntoView s)
    (discovered s) (fresh s).
Definition set_bodyHoverStateSent v s :=
  mkState (port s) (isInspecting s) (isHoveringOverPage s) v
    (scrollEventListeners s) (hoveredFrame s) (listeners s) (windowScroll s)
    (popovers s) (highlighting s) (posted s) (scrolledIntoView s)
    (discovered s) (fresh s).
Definition set_scrollEventListeners v s :=
  mkState (port s) (isInspecting s) (isHoveringOverPage s) (bodyHoverStateSent s)
    v (hoveredFrame s) (listeners s) (windowScroll s)
    (popovers s) (highlighting s) (posted s) (scrolledIntoView s)
    (discovered s) (fresh s).
Definition set_hoveredFrame v s :=
  mkState (port s) (isInspecting s) (isHoveringOverPage s) (bodyHoverStateSent s)
    (scrollEventListeners s) v (listeners s) (windowScroll s)
    (popovers s) (highlighting s) (posted s) (scrolledIntoView s)
    (discovered s) (fresh s).
Definition set_listeners v s :=
  mkState (port s) (isInspecting s) (isHoveringOverPage s) (bodyHoverStateSent s)
    (scrollEventListeners s) (hoveredFrame s) v (windowScroll s)
    (popovers s) (highlighting s) (posted s) (scrolledIntoView s)
    (discovered s) (fresh s).
Definition set_windowScroll v s :=
  mkState (port s) (isInspecting s) (isHoveringOverPage s) (bodyHoverStateSent s)
    (scrollEventListeners s) (hoveredFrame s) (listeners s) v
    (popovers s) (highlighting s) (posted s) (scrolledIntoView s)
    (discovered s) (fresh s).
Definition set_popovers v s :=
  mkState (port s) (isInspecting s) (isHoveringOverPage s) (bodyHoverStateSent s)
    (scrollEventListeners s) (hoveredFrame s) (listeners s) (windowScroll s)
    v (highlighting s) (posted s) (scrolledIntoView s)
    (discovered s) (fresh s).
Definition set_highlighting v s :=
  mkState (port s) (isInspecting s) (isHoveringOverPage s) (bodyHoverStateSent s)
    (scrollEventListeners s) (hoveredFrame s) (listeners s) (windowScroll s)
    (popovers s) v (posted s) (scrolledIntoView s)
    (discovered s) (fresh s).
Definition set_posted v s :=
  mkState (port s) (isInspecting s) (isHoveringOverPage s) (bodyHoverStateSent s)
    (scrollEventListeners s) (hoveredFrame s) (listeners s) (windowScroll s)
    (popovers s) (highlighting s) v (scrolledIntoView s)
    (discovered s) (fresh s).
Definition set_scrolledIntoView v s :=
  mkState (port s) (isInspecting s) (isHoveringOverPage s) (bodyHoverStateSent s)
    (scrollEventListeners s) (hoveredFrame s) (listeners s) (windowScroll s)
    (popovers s) (highlighting s) (posted s) v
    (discovered s) (fresh s).
Definition set_discovered v s :=
  mkState (port s) (isInspecting s) (isHoveringOverPage s) (bodyHoverStateSent s)
    (scrollEventListeners s) (hoveredFrame s) (listeners s) (windowScroll s)
    (popovers s) (highlighting s) (posted s) (scrolledIntoView s)
    v (fresh s).
Definition set_fresh v s :=
  mkState (port s) (isInspecting s) (isHoveringOverPage s) (bodyHoverStateSent s)
    (scrollEventListeners s) (hoveredFrame s) (listeners s) (windowScroll s)
    (popovers s) (highlighting s) (posted s) (scrolledIntoView s)
    (discovered s) v.

(** *** JavaScript truthiness *)

(** A string-or-undefined value used as a condition: the string when
    it is truthy (present and not empty). *)
Definition truthy_string (v : option string) : option string :=
  match v with
  | Some a => if String.eqb a "" then None else Some a
  | None => None
  end.

Definition truthy_bool (v : option bool) : bool :=
  match v with Some b => b | None => false end.

Definition is_some {A} (v : option A) : bool :=
  match v with Some _ => true | None => false end.

(** *** Event listeners of the document *)

Definition target_eqb (a b : Target) : bool :=
  match a, b with
  | Document, Document | DocElement, DocElement => true
  | _, _ => false
  end.

Definition handler_eqb (a b : Handler) : bool :=
  match a, b with
  | HandleHoverEvent, HandleHoverEvent | HandleMouseMove, HandleMouseMove => true
  | _, _ => false
  end.

Definition binding_eqb (a b : Binding) : bool :=
  target_eqb (b_target a) (b_target b)
  && String.eqb (b_type a) (b_type b)
  && handler_eqb (b_handler a) (b_handler b).

(** [EventTarget.addEventListener]: a listener already in the list
    (same type, same callback) is not added a second time. *)
Definition addEventListener (b : Binding) (s : State) : State :=
  if existsb (binding_eqb b) (listeners s) then s
  else set_listeners (listeners s ++ [b]) s.

Definition removeEventListener (b : Binding) (s : State) : State :=
  set_listeners (filter (fun x => negb (binding_eqb b x)) (listeners s)) s.

(** [window.addEventListener('scroll', callback)] for a callback that
    is a function object made just before the call, which the window
    cannot hold yet. *)
Definition window_addEventListener (cb : Callback) (s : State) : State :=
  set_windowScroll (windowScroll s ++ [cb]) s.

(** [window.removeEventListener('scroll', listener)]: removal is by
    the identity of the function object. *)
Definition window_removeEventListener (cb : Callback) (s : State) : State :=
  set_windowScroll
    (filter (fun c => negb (Nat.eqb (cb_id c) (cb_id cb))) (windowScroll s)) s.

Definition addEventListeners (s : State) : State :=
  let s := addEventListener (mkBinding Document "mouseover" HandleHoverEvent) s in
  let s := addEventListener (mkBinding Document "mouseout" HandleHoverEvent) s in
  let s := addEventListener (mkBinding Document "visibilitychange" HandleMouseMove) s in
  let s := addEventListener (mkBinding DocElement "mouseleave" HandleMouseMove) s in
  addEventListener (mkBinding DocElement "mouseenter" HandleMouseMove) s.

Definition removeEventListeners (s : State) : State :=
  let s := removeEventListener (mkBinding Document "mouseover" HandleHoverEvent) s in
  let s := removeEventListener (mkBinding Document "mouseout" HandleHoverEvent) s in
  let s := removeEventListener (mkBinding Document "visibilitychange" HandleMouseMove) s in
  let s := removeEventListener (mkBinding DocElement "mouseleave" HandleMouseMove) s in
  removeEventListener (mkBinding DocElement "mouseenter" HandleMouseMove) s.

(** *** The imported helpers *)

Module Popovers.

(** Modelled from the spec: the body of [removeAllPopovers]
    (./popovers) is not among the sources. The Popover Factory
    "creates/destroys overlay and tooltip DOM nodes" and is
    "stateless beyond DOM mutation": the call takes no argument
    and removes every popover node from the document. *)
Definition removeAllPopovers (s : State) : State :=
  set_popovers [] s.

(** Modelled from the spec: the body of [toggleFrameHighlighting]
    (./popovers) is not among the sources; it enables or disables
    the frame-highlighting mode. *)
Definition toggleFrameHighlighting (on : bool) (s : State) : State :=
  set_highlighting on s.

(** Modelled from the spec: the body of [addOverlay] (./popovers) is
    not among the sources; the factory creates the overlay node of
    the frame, appends it to the document and returns it. *)
Definition addOverlay (frame : Frame) (s : State) : option nat * State :=
  let node := fresh s in
  (Some node,
   set_popovers (popovers s ++ [Overlay node frame]) (set_fresh (S node) s)).

(** Modelled from the spec: the body of [addTooltip] (./popovers) is
    not among the sources; the factory creates the tooltip node for
    the frame (or for no frame) with the two counts, appends it to
    the document and returns it. *)
Definition addTooltip (frame : option Frame)
    (numberOfVisibleFrames numberOfHiddenFrames : nat)
    (s : State) : option nat * State :=
  let node := fresh s in
  (Some node,
   set_popovers
     (popovers s ++ [Tooltip node frame numberOfVisibleFrames numberOfHiddenFrames])
     (set_fresh (S node) s)).

End Popovers.

Module Utils.

Record FrameCount : Type := mkFrameCount {
  numberOfFrames : nat;
  numberOfVisibleFrames : nat;
  numberOfHiddenFrames : nat
}.

(** Modelled from the spec: the body of [getFrameCount] (./utils) is
    not among the sources. It returns the number of candidates, and
    how many of them are visible and hidden, by classifying each
    one; the classification is the one [isFrameHidden] gives. *)
Definition getFrameCount (env : Env) (frameElements : list Frame) : FrameCount :=
  let hidden := List.length (filter (isFrameHidden env) frameElements) in
  mkFrameCount (List.length frameElements)
               (List.length frameElements - hidden) hidden.

End Utils.

(** *** Methods of the class *)

(** The positions written by [setOverlayPosition] and
    [setTooltipPosition] are style properties of the node they are
    given; running an [updatePosition] closure therefore leaves every
    field of [State] as it is. *)
Definition run_callback (cb : Callback) (s : State) : State := s.

Definition addEventListerOnScroll (callback : Callback) (s : State) : State :=
  let s := set_scrollEventListeners (scrollEventListeners s ++ [callback]) s in
  let s := run_callback callback s in
  window_addEventListener callback s.

Definition insertOverlay (frame : Frame) (s : State) : option nat * State :=
  let (overlay, s) := Popovers.addOverlay frame s in
  let updatePosition := mkCallback (fresh s) (RepositionOverlay overlay frame) in
  let s := set_fresh (S (fresh s)) s in
  (overlay, addEventListerOnScroll updatePosition s).

Definition insertTooltip (frame : option Frame)
    (numberOfVisibleFrames numberOfHiddenFrames : nat)
    (response : ResponseType) (s : State) : option nat * State :=
  let (tooltip, s) :=
    Popovers.addTooltip frame numberOfVisibleFrames numberOfHiddenFrames s in
  let updatePosition :=
    mkCallback (fresh s) (RepositionTooltip tooltip frame (selectedFrame response)) in
  let s := set_fresh (S (fresh s)) s in
  (tooltip, addEventListerOnScroll updatePosition s).

(** [this.removeAllPopovers()], the method of the class. *)
Definition removeAllPopovers (s : State) : State :=
  let s :=
    if Nat.eqb (List.length (scrollEventListeners s)) 0 then s
    else
      set_scrollEventListeners []
        (fold_left (fun st listener => window_removeEventListener listener st)
                   (scrollEventListeners s) s) in
  Popovers.removeAllPopovers s.

Definition abortInspection (s : State) : State :=
  let s := removeEventListeners s in
  let s := Popovers.removeAllPopovers s in
  let s := Popovers.toggleFrameHighlighting false s in
  set_isInspecting false s.

Definition onDisconnect (s : State) : State :=
  abortInspection (set_port None s).

Definition onConnect (env : Env) (name : string) (p : Port) (s : State) : State :=
  if String.prefix (WEBPAGE_PORT_NAME env) name then set_port (Some p) s else s.

(** The record returned by [insertPopoversConditionHandler]. *)
Record PopoverElement : Type := mkPopoverElement {
  frameWithTooltip : option Frame;
  firstToolTip : option nat
}.

(** One round of the last [forEach] of the handler: the frame at
    [index], the record and the state so far. *)
Definition tooltipRound (env : Env)
    (visibleIFrameCount hiddenIFrameCount : nat) (response : ResponseType)
    (acc : PopoverElement * State * nat) (frame : Frame)
    : PopoverElement * State * nat :=
  let '(popoverElement, s, index) := acc in
  if negb (isFrameHidden env frame) then
    let (tooltip, s) :=
      insertTooltip (Some frame) visibleIFrameCount hiddenIFrameCount response s in
    (mkPopoverElement (Some frame)
       (if Nat.eqb 0 index then tooltip else firstToolTip popoverElement),
     s, S index)
  else (popoverElement, s, S index).

Definition insertPopoversConditionHandler (env : Env)
    (frameElements : list Frame)
    (visibleIFrameCount hiddenIFrameCount : nat)
    (response : ResponseType) (s : State) : PopoverElement * State :=
  let popoverElement := mkPopoverElement None None in
  if Nat.eqb 0 hiddenIFrameCount then
    (* All frames are visible. *)
    let s := fold_left (fun st frame => snd (insertOverlay frame st))
                       frameElements s in
    let iframeForTooltip :=
      match hoveredFrame s with
      | Some h => Some h
      | None => nth_error frameElements 0
      end in
    let iframeForTooltip :=
      if is_some (hoveredFrame s) then iframeForTooltip
      else
        fold_left
          (fun chosen frame =>
             if isElementVisibleInViewport env (Some frame) true
             then Some frame else chosen)
          frameElements iframeForTooltip in
    let (tooltip, s) :=
      insertTooltip iframeForTooltip visibleIFrameCount hiddenIFrameCount
                    response s in
    (mkPopoverElement iframeForTooltip tooltip, s)
  else if Nat.eqb 0 visibleIFrameCount then
    (* All frames are hidden. *)
    match frameElements with
    | frame :: _ =>
        let s := snd (insertOverlay frame s) in
        let s := snd (insertTooltip (Some frame) visibleIFrameCount
                                    hiddenIFrameCount response s) in
        (popoverElement, s)
    | [] => (popoverElement, s)   (* the caller passes a non-empty array *)
    end
  else
    let s := fold_left
               (fun st frame =>
                  if negb (isFrameHidden env frame)
                  then snd (insertOverlay frame st) else st)
               frameElements s in
    let '(popoverElement, s, _) :=
      fold_left (tooltipRound env visibleIFrameCount hiddenIFrameCount response)
                frameElements (popoverElement, s, 0%nat) in
    (popoverElement, s).

(** [firstToolTip.scrollIntoView({behavior: 'instant', block: 'start',
    inline: 'nearest'})] *)
Definition scrollIntoView (node : nat) (s : State) : State :=
  set_scrolledIntoView (scrolledIntoView s ++ [node]) s.

Definition insertPopovers (env : Env) (response : ResponseType) (s : State)
    : State :=
  (* If the no frame was selected in devtool. *)
  if truthy_bool (removeAllFramePopovers response)
     && negb (is_some (truthy_string (selectedFrame response)))
  then Popovers.removeAllPopovers s
  else
    match truthy_string (selectedFrame response) with
    | None => s
    | Some selected =>
        let frameElements := findSelectedFrameElements env selected in
        let s := set_discovered (discovered s ++ [selected]) s in
        let frameCount := Utils.getFrameCount env frameElements in
        (* Remove previous frames. *)
        let s := removeAllPopovers s in
        if Nat.eqb (Utils.numberOfFrames frameCount) 0 then
          snd (insertTooltip None 0 0 response s)
        else
          match frameElements with
          | [] => s   (* numberOfFrames is the length of the array *)
          | frameToScrollTo :: _ =>
              let (popoverElement, s) :=
                insertPopoversConditionHandler env frameElements
                  (Utils.numberOfVisibleFrames frameCount)
                  (Utils.numberOfHiddenFrames frameCount) response s in
              match firstToolTip popoverElement with
              | Some tip =>
                  if negb (isHoveringOverPage s)
                     && negb (Z.eqb (clientWidth env frameToScrollTo) 0)
                     && negb (isElementVisibleInViewport env
                                (frameWithTooltip popoverElement) false)
                  then scrollIntoView tip s
                  else s
              | None => s
              end
          end
    end.

Definition onMessage (env : Env) (response : ResponseType) (s : State) : State :=
  let s := set_isInspecting (isInspecting_r response) s in
  if isInspecting_r response then
    let s := removeEventListeners s in
    let s := addEventListeners s in
    let s := Popovers.toggleFrameHighlighting true s in
    insertPopovers env response s
  else abortInspection s.

(** *** Hover handling *)

(** What [handleHoverEvent] reads from [event.target]. *)
Record MouseEvent : Type := mkMouseEvent {
  target : Frame;
  tagName : string;
  classList : list string;
  src : option string              (* getAttribute('src'), null as [None] *)
}.

(** A call either returns or leaves through an exception; both carry
    the state reached. *)
Inductive Outcome : Type :=
| Returned (s : State)
| Thrown (s : State).

Definition bind (o : Outcome) (k : State -> Outcome) : Outcome :=
  match o with
  | Returned s => k s
  | Thrown s => Thrown s
  end.

Local Notation "'do' s <- o ; k" := (bind o (fun s => k))
  (at level 10, s name, o at level 100, k at level 200).

(** [this.port.postMessage(msg)] *)
Definition postMessage (env : Env) (msg : OutMsg) (s : State) : Outcome :=
  if postMessage_throws env then Thrown s
  else Returned (set_posted (posted s ++ [msg]) s).

Definition handleHoverEvent (env : Env) (event : MouseEvent) (s : State)
    : Outcome :=
  let isNonIframeElement := negb (String.eqb (tagName event) "IFRAME") in
  let isTooltipElement :=
    TokenList.contains (classList event) (TOOLTIP_CLASS env)
    || TokenList.contains (classList event) "ps-tooltip-info-toggle-btn"
    || TokenList.contains (classList event) "ps-enable-pointer-event" in
  let isHoverableElement :=
    TokenList.contains (classList event) (TOOLTIP_CLASS env)
    || TokenList.contains (classList event) "ps-hover" in
  let s := set_hoveredFrame None s in
  if isTooltipElement || isHoverableElement then Returned s
  else
    let s := set_isHoveringOverPage true s in
    do s <- (if negb (bodyHoverStateSent s) && isInspecting s
                && isNonIframeElement && is_some (port s)
             then
               let s := Popovers.removeAllPopovers s in
               do s <- (if runtime_id env then postMessage env BodyHover s
                        else Returned s);
               Returned (set_bodyHoverStateSent true s)
             else Returned s);
    if negb (isInspecting s) || isNonIframeElement then Returned s
    else
      let s := set_bodyHoverStateSent false s in
      let s := set_hoveredFrame (Some (target event)) s in
      let frame := target event in
      let srcAttribute :=
        match src event with
        | Some a => if String.eqb a "about:blank" then Some "" else Some a
        | None => None
        end in
      let s :=
        match truthy_string srcAttribute with
        | None =>
            (* User is able to hover over it so it is visible,
               also it doesn't have src so it cannot be related to other frames. *)
            let visibleIFrameCount := 1%nat in
            let hiddenIFrameCount := 0%nat in
            let s := removeAllPopovers s in
            let s := snd (insertOverlay frame s) in
            snd (insertTooltip (Some frame) visibleIFrameCount hiddenIFrameCount
                               (mkResponse true None None) s)
        | Some _ => s
        end in
      (* [url] is the origin of the parsed address, [None] for '' *)
      let parsed :=
        match truthy_string srcAttribute with
        | Some a =>
            match url_origin env a with
            | Some o => Some (Some o)
            | None => None           (* new URL threw *)
            end
        | None => Some None
        end in
      match parsed with
      | None => Returned s
      | Some url =>
          if negb (is_some (port s)) then Returned s
          else
            match
              (if runtime_id env then
                 postMessage env
                   (FrameHover (match url with Some o => o | None => "" end)
                               (match url with Some _ => false | None => true end))
                   s
               else Returned s)
            with
            | Returned s => Returned s
            | Thrown s => Returned (abortInspection s)
            end
      end.

(** [handleMouseMove], with [event?.type] as its argument. *)
Definition handleMouseMove (env : Env) (type : string) (s : State) : State :=
  let s :=
    if String.eqb type "mouseenter" then set_isHoveringOverPage true s
    else if String.eqb type "mouseleave" then set_isHoveringOverPage false s
    else s in
  if document_hidden env then set_isHoveringOverPage false s else s.

End Controller.

(* ================================================================= *)
(** ** Notions used to state the properties of the content script *)

Module Notions.

Import Controller.
Local Open Scope list_scope.

(** [extend s ps cbs n]: the state [s] with the popovers [ps]
    appended to the document, the callbacks [cbs] appended to the
    registry and to the window, and [n] identities used up. *)
Definition extend (s : State) (ps : list Popover) (cbs : list Callback)
    (n : nat) : State :=
  mkState (port s) (isInspecting s) (isHoveringOverPage s)
    (bodyHoverStateSent s) (scrollEventListeners s ++ cbs) (hoveredFrame s)
    (listeners s) (windowScroll s ++ cbs) (popovers s ++ ps) (highlighting s)
    (posted s) (scrolledIntoView s) (discovered s) (n + fresh s).

Definition extends (s s' : State) : Prop :=
  exists ps cbs n,
    s' = extend s ps cbs n /\ List.length cbs = List.length ps.

(** [held l c]: the function object [c] is one of those in [l]. *)
Definition held (l : list Callback) (c : Callback) : bool :=
  existsb (fun x => Nat.eqb (cb_id c) (cb_id x)) l.

(** The call of [insertPopoversConditionHandler] that
    [insertPopovers] makes for the origin [selected]: the state it
    starts from and its result. *)
Definition drained (selected : string) (s : State) : State :=
  removeAllPopovers (set_discovered (discovered s ++ [selected]) s).

Definition handlerCall (env : Env) (response : ResponseType)
    (selected : string) (s : State) : PopoverElement * State :=
  let frameElements := findSelectedFrameElements env selected in
  let frameCount := Utils.getFrameCount env frameElements in
  insertPopoversConditionHandler env frameElements
    (Utils.numberOfVisibleFrames frameCount)
    (Utils.numberOfHiddenFrames frameCount) response (drained selected s).



(** A run of hover events, each with the page as it is when the event
    is dispatched; an exception ends the run. *)
Fixpoint hoverAll (events : list (Env * MouseEvent)) (s : State) : Outcome :=
  match events with
  | [] => Returned s
  | (env, event) :: rest => bind (handleHoverEvent env event s) (hoverAll rest)
  end.

(** How many body-hover reports a trace of posted messages holds. *)
Definition bodyHovers (l : list OutMsg) : nat :=
  List.length
    (filter (fun m => match m with BodyHover => true | FrameHover _ _ => false end)
            l).

(** The session is live: the extension context is valid and posting
    on the port succeeds. *)
Definition live (env : Env) : Prop :=
  runtime_id env = true /\ postMessage_throws env = false.

(** The target carries one of the classes of the extension's own
    tooltip and hover elements, which [handleHoverEvent] ignores. *)
Definition marked (env : Env) (event : MouseEvent) : bool :=
  (TokenList.contains (classList event) (TOOLTIP_CLASS env)
   || TokenList.contains (classList event) "ps-tooltip-info-toggle-btn"
   || TokenList.contains (classList event) "ps-enable-pointer-event")
  || (TokenList.contains (classList event) (TOOLTIP_CLASS env)
      || TokenList.contains (classList event) "ps-hover").

(** A host-page element that is not a frame. *)
Definition onBody (env : Env) (event : MouseEvent) : Prop :=
  String.eqb (tagName event) "IFRAME" = false /\ marked env event = false.

(** A frame of the host page. *)
Definition onFrame (env : Env) (event : MouseEvent) : Prop :=
  tagName event = "IFRAME" /\ marked env event = false.

(** The five bindings of [addEventListeners]. *)
Definition hoverBindings : list Binding :=
  [ mkBinding Document "mouseover" HandleHoverEvent;
    mkBinding Document "mouseout" HandleHoverEvent;
    mkBinding Document "visibilitychange" HandleMouseMove;
    mkBinding DocElement "mouseleave" HandleMouseMove;
    mkBinding DocElement "mouseenter" HandleMouseMove ].

(** The rendered popover set and the tracked positions, without the
    identities of the nodes and of the function objects. *)
Inductive Rendered : Type :=
| RenderedOverlay (frame : Frame)
| RenderedTooltip (frame : option Frame)
                  (numberOfVisibleFrames numberOfHiddenFrames : nat).

Definition rendered (ps : list Popover) : list Rendered :=
  map (fun p => match p with
                | Overlay _ frame => RenderedOverlay frame
                | Tooltip _ frame v h => RenderedTooltip frame v h
                end) ps.

Inductive Tracked : Type :=
| TrackedOverlay (frame : Frame)
| TrackedTooltip (frame : option Frame) (selectedFrame : option string).

Definition tracked (cbs : list Callback) : list Tracked :=
  map (fun c => match cb_body c with
                | RepositionOverlay _ frame => TrackedOverlay frame
                | RepositionTooltip _ frame sel => TrackedTooltip frame sel
                end) cbs.

(** Every scroll callback on the window is in the registry and the
    other way round, in the same order. *)
Definition synced (s : State) : Prop :=
  windowScroll s = scrollEventListeners s.

(** Two states render the same popovers and track the same positions,
    and remember the same hovered frame. *)
Definition alike (s t : State) : Prop :=
  hoveredFrame s = hoveredFrame t
  /\ rendered (popovers s) = rendered (popovers t)
  /\ tracked (scrollEventListeners s) = tracked (scrollEventListeners t).

(** The part of [onMessage] that precedes [insertPopovers] when the
    command says to inspect. *)
Definition prepared (s : State) : State :=
  Popovers.toggleFrameHighlighting true
    (addEventListeners (removeEventListeners (set_isInspecting true s))).

(** A binding that is not one of the five of [addEventListeners]. *)
Definition foreign (x : Binding) : bool :=
  negb (existsb (binding_eqb x) hoverBindings).

(** The state [insertPopovers] reaches for the origin [selected] before
    it decides whether to scroll. *)
Definition inserted (env : Env) (response : ResponseType) (selected : string)
    (s : State) : State :=
  match findSelectedFrameElements env selected with
  | [] => snd (insertTooltip None 0 0 response (drained selected s))
  | _ :: _ => snd (handlerCall env response selected s)
  end.

(** What two states are compared on after a start command. *)
Definition view (s : State) :=
  (hoveredFrame s, popovers s, scrollEventListeners s, windowScroll s,
   listeners s, isInspecting s, highlighting s).

(** [handleHoverEvent] in two stages: the report of a hover over the
    body, and what follows the test for a frame. The handler is their
    composition (lemma [handleHoverEvent_stages]). *)
Definition bodyStage (env : Env) (isNonIframeElement : bool) (s : State)
    : Outcome :=
  if negb (bodyHoverStateSent s) && isInspecting s
     && isNonIframeElement && is_some (port s)
  then
    bind (if runtime_id env
          then postMessage env BodyHover (Popovers.removeAllPopovers s)
          else Returned (Popovers.removeAllPopovers s))
         (fun s => Returned (set_bodyHoverStateSent true s))
  else Returned s.

Definition frameStage (env : Env) (event : MouseEvent) (s : State) : Outcome :=
  let s := set_bodyHoverStateSent false s in
  let s := set_hoveredFrame (Some (target event)) s in
  let srcAttribute :=
    match src event with
    | Some a => if String.eqb a "about:blank" then Some "" else Some a
    | None => None
    end in
  let s :=
    match truthy_string srcAttribute with
    | None =>
        snd (insertTooltip (Some (target event)) 1 0 (mkResponse true None None)
               (snd (insertOverlay (target event) (removeAllPopovers s))))
    | Some _ => s
    end in
  match
    match truthy_string srcAttribute with
    | Some a =>
        match url_origin env a with
        | Some o => Some (Some o)
        | None => None
        end
    | None => Some None
    end
  with
  | None => Returned s
  | Some url =>
      if negb (is_some (port s)) then Returned s
      else
        match
          (if runtime_id env then
             postMessage env
               (FrameHover (match url with Some o => o | None => "" end)
                           (match url with Some _ => false | None => true end))
               s
           else Returned s)
        with
        | Returned s => Returned s
        | Thrown s => Returned (abortInspection s)
        end
  end.

(** The events the script reacts to, and a session as the list of
    events delivered since the script was started. An exception thrown
    by a handler is lost in the event loop; the state it reached stays. *)
Inductive Event : Type :=
| Connect (env : Env) (name : string) (p : Port)
| Message (env : Env) (response : ResponseType)
| Disconnect
| Hover (env : Env) (event : MouseEvent)
| MouseMove (env : Env) (type : string).

Definition final (o : Outcome) : State :=
  match o with
  | Returned s => s
  | Thrown s => s
  end.

Definition deliver (s : State) (e : Event) : State :=
  match e with
  | Connect env name p => onConnect env name p s
  | Message env response => onMessage env response s
  | Disconnect => onDisconnect s
  | Hover env event => final (handleHoverEvent env event s)
  | MouseMove env type => handleMouseMove env type s
  end.

Definition session (events : list Event) : State :=
  fold_left deliver events initial.

(** [grows s s' rs ts]: [s'] is [s] with popovers rendering [rs]
    appended and callbacks tracking [ts] registered. *)
Definition grows (s s' : State) (rs : list Rendered) (ts : list Tracked)
    : Prop :=
  exists ps cbs n,
    s' = extend s ps cbs n /\ rendered ps = rs /\ tracked cbs = ts.

(** The matches that are not hidden, in document order. *)
Definition visibleFrames (env : Env) (frames : list Frame) : list Frame :=
  filter (fun frame => negb (isFrameHidden env frame)) frames.

(** The frame of the tooltip when no match is hidden: the hovered
    frame when there is one, else the last match that
    [isElementVisibleInViewport(frame, true)] accepts, else the first
    match. *)
Definition anchorChoice (env : Env) (hovered : option Frame)
    (frames : list Frame) : option Frame :=
  match hovered with
  | Some h => Some h
  | None =>
      last (map Some
              (filter (fun frame =>
                         isElementVisibleInViewport env (Some frame) true)
                      frames))
           (nth_error frames 0)
  end.

(** The controller is either idle, with no hover listener, no
    highlighting and no popover, or inspecting, with exactly the five
    bindings of [addEventListeners] and highlighting on. *)
Definition steady (s : State) : Prop :=
  listeners s = (if isInspecting s then hoverBindings else [])
  /\ highlighting s = isInspecting s
  /\ (isInspecting s = false -> popovers s = []).

(** The instance fields and document state that rendering popovers
    does not concern. *)
Definition others (s : State) :=
  (port s, isInspecting s, isHoveringOverPage s, bodyHoverStateSent s,
   hoveredFrame s, listeners s, highlighting s, posted s).

(** A run of commands from the panel, each with the page as it is when
    the command arrives. *)
Definition commandsRun (commands : list (Env * ResponseType)) (s : State)
    : State :=
  fold_left (fun st c => onMessage (fst c) (snd c) st) commands s.

End Notions.

(* ================================================================= *)
(** ** Concrete pages and sessions used below *)

Module Scenario.

Import Placement.
Local Open Scope Z_scope.

(** A 1000 x 600 viewport of a page at [https://host.test], scrolled
    down by 500 pixels. *)
Definition scrolledWindow : Window :=
  mkWindow 1000 600 0 500 "https://host.test".

(** A freshly made tooltip of 200 x 50 pixels with one child. *)
Definition smallTooltip : Tooltip :=
  mkTooltip (mkStyle css_initial css_initial css_initial css_initial)
            ["ps-tooltip"] (Some []) 200 50.

(** A tooltip of 200 x 400 pixels, taller than the room above and
    below [midFrame]. *)
Definition tallTooltip : Tooltip :=
  mkTooltip (mkStyle css_initial css_initial css_initial css_initial)
            ["ps-tooltip"] (Some []) 200 400.

(** A frame near the right edge of the viewport. *)
Definition rightFrame : FrameEl := mkFrameEl (mkRect 900 300 300) 150.

(** A frame whose top edge is 300 pixels below the top of the
    viewport. *)
Definition midFrame : FrameEl := mkFrameEl (mkRect 100 300 300) 150.

Definition selected : option string := Some "https://a.test".

(** A page with three frames of origin [https://a.test]: frame 1 is
    fully inside the viewport, frame 2 is hidden (zero width, out of
    view), frame 3 is cut by the edge of the viewport. *)
Definition page (throws : bool) : Controller.Env :=
  Controller.mkEnv "ps-tooltip" "webpage"
    (fun o => if String.eqb o "https://a.test" then [1; 2; 3]%nat else [])
    (fun f partially =>
       match f with
       | Some 1%nat => true
       | Some 3%nat => partially
       | _ => false
       end)
    (fun f => Nat.eqb f 2)
    (fun f => if Nat.eqb f 2 then 0 else 300)
    false
    (fun a => if String.eqb a "https://a.test/ad" then Some "https://a.test"
              else None)
    true throws.

Definition start : Controller.ResponseType := Controller.mkResponse true (Some "https://a.test") None.
Definition stop : Controller.ResponseType := Controller.mkResponse false None None.
Definition clear : Controller.ResponseType := Controller.mkResponse true None (Some true).

(** The panel has connected and sent [start]. *)
Definition connected : Controller.State :=
  Controller.onConnect (page false) "webpage-1" 7%nat Controller.initial.
Definition inspecting : Controller.State :=
  Controller.onMessage (page false) start connected.

Definition overBody : Controller.MouseEvent :=
  Controller.mkMouseEvent 50%nat "DIV" [] None.
Definition overBlankFrame : Controller.MouseEvent :=
  Controller.mkMouseEvent 9%nat "IFRAME" [] (Some "about:blank").
Definition overAdFrame : Controller.MouseEvent :=
  Controller.mkMouseEvent 1%nat "IFRAME" [] (Some "https://a.test/ad").


(** A page with two frames of origin [https://a.test], 300 pixels wide,
    one right above the other and both below the fold: neither meets
    the viewport. *)
Definition belowFold : Controller.Env :=
  Controller.mkEnv "ps-tooltip" "webpage"
    (fun o => if String.eqb o "https://a.test" then [1; 2]%nat else [])
    (fun _ _ => false)
    (fun _ => false)
    (fun _ => 300)
    false (fun _ => None) true false.

(** The page of [belowFold] once the tooltip of frame 1 has been
    scrolled to the top of the viewport: frame 1 is fully inside, frame
    2, right below it, is cut by the lower edge. *)
Definition afterScroll : Controller.Env :=
  Controller.mkEnv "ps-tooltip" "webpage"
    (fun o => if String.eqb o "https://a.test" then [1; 2]%nat else [])
    (fun f partially =>
       match f with
       | Some 1%nat => true
       | Some 2%nat => partially
       | _ => false
       end)
    (fun _ => false)
    (fun _ => 300)
    false (fun _ => None) true false.

(** The panel connects and starts the inspection, the pointer moves over
    the body of the page, the panel stops the inspection and starts it
    again. *)
Definition restarted : Controller.State :=
  Notions.session
    [ Notions.Connect (page false) "webpage-1" 7%nat;
      Notions.Message (page false) start;
      Notions.Hover (page false) overBody;
      Notions.Message (page false) stop;
      Notions.Message (page false) start ].

End Scenario.

(* ================================================================= *)
(** ** Properties of the tooltip placement *)

Module PlacementFacts.

Import Placement.
Local Open Scope Z_scope.

(** [contains] after the [remove] and [add] of the six placements at
    the frame. *)
Lemma contains_add (l : list string) (c n : string) :
  TokenList.contains (TokenList.add l c) n
  = TokenList.contains l n || String.eqb n c.
Proof.
  unfold TokenList.add.
  destruct (TokenList.contains l c) eqn:Hc.
  - destruct (String.eqb_spec n c) as [->|_].
    + now rewrite Hc.
    + now rewrite orb_false_r.
  - unfold TokenList.contains. rewrite existsb_app. simpl.
    now rewrite orb_false_r.
Qed.

Lemma contains_remove (l cs : list string) (n : string) :
  TokenList.contains cs n = true ->
  TokenList.contains (TokenList.remove l cs) n = false.
Proof.
  intros Hn. unfold TokenList.remove.
  induction l as [|a l IH]; simpl; [reflexivity|].
  destruct (TokenList.contains cs a) eqn:Ha; simpl; [exact IH|].
  unfold TokenList.contains at 1. simpl. fold (TokenList.contains
    (filter (fun c => negb (TokenList.contains cs c)) l) n).
  rewrite IH, orb_false_r.
  destruct (String.eqb_spec n a) as [->|_]; [congruence|reflexivity].
Qed.

(** Clearing the four notch classes and adding one of them leaves
    exactly that one on the child. *)
Lemma one_notch_after_clear (t : Tooltip) (c : string) (l : list string) :
  In c notch_classes ->
  firstElementChild t = Some l ->
  activeNotches (child_add c (child_remove notch_classes t)) = 1%nat.
Proof.
  intros Hc Hl. unfold activeNotches, child_add, child_remove. simpl.
  rewrite Hl. simpl.
  rewrite !contains_add.
  rewrite !contains_remove by reflexivity. simpl.
  destruct Hc as [<-|[<-|[<-|[<-|[]]]]]; reflexivity.
Qed.

(** Every placement above or below the frame leaves one notch class;
    the fall-through leaves the child as it found it. *)
Lemma placeAtFrame_notch (w : Window) (f : FrameEl) (t : Tooltip)
    (l : list string) :
  firstElementChild t = Some l ->
  activeNotches (placeAtFrame w f t) = 1%nat
  \/ placeAtFrame w f t = set_top (css_px (rect_y (getBoundingClientRect f))) t.
Proof.
  intros Hl. unfold placeAtFrame.
  repeat match goal with
         | |- context [if ?b then _ else _] => destruct b
         end;
    try (right; reflexivity);
    left; apply one_notch_after_clear with (l := l);
    solve [ simpl; tauto | exact Hl ].
Qed.

(** C3 at a tooltip that was first placed above [rightFrame], to the
    left of it, and is placed again after the frame collapsed to zero
    width: the first call leaves the bottom-right notch alone on the
    child, the second call, through the hidden-frame branch, adds the
    top-left notch next to it, so two notch classes are active. *)
Theorem hidden_frame_branch_keeps_old_notch :
  let w := Scenario.scrolledWindow in
  let first := setTooltipPosition w (Some Scenario.smallTooltip)
                 (Some Scenario.rightFrame) false Scenario.selected in
  let second := setTooltipPosition w (after first)
                  (Some Scenario.rightFrame) true Scenario.selected in
  option_map firstElementChild (after first) = Some (Some [bottom_right_notch])
  /\ option_map firstElementChild (after second)
     = Some (Some [bottom_right_notch; top_left_notch])
  /\ option_map activeNotches (after second) = Some 2%nat.
Proof. repeat split. Qed.

(** The fall-through of the placement writes the frame's viewport
    ordinate, whatever the scroll offset. *)
Lemma fall_through_top (w : Window) (f : FrameEl) (t : Tooltip) :
  let frameY := rect_y (getBoundingClientRect f) in
  (offsetHeight t <? frameY) && (1 <=? frameY - offsetHeight t) = false ->
  (frameY + offsetHeight t <? innerHeight w) = false ->
  style_top (style (placeAtFrame w f t)) = css_px frameY.
Proof.
  intros frameY Ha Hb. unfold placeAtFrame. fold frameY.
  rewrite Ha, Hb. reflexivity.
Qed.

(** C4 at [midFrame], 300 pixels below the top of a viewport that is
    scrolled down by 500 pixels, with a tooltip too tall to fit above
    or below: the fall-through writes [top = 300px], the ordinate in
    the viewport, where the ordinate in the document is 800px. *)
Theorem fall_through_top_ignores_scroll :
  let w := Scenario.scrolledWindow in
  let frameY := rect_y (getBoundingClientRect Scenario.midFrame) in
  option_map (fun t => style_top (style t))
    (after (setTooltipPosition w (Some Scenario.tallTooltip)
              (Some Scenario.midFrame) false Scenario.selected))
  = Some (css_px 300)
  /\ css_px 300 = css_px frameY
  /\ css_px 300 <> css_px (frameY + scrollY w).
Proof. repeat split. discriminate. Qed.

(** C10: with a null tooltip the function returns at once, for every
    frame, flag and origin: nothing is written and the frame's geometry
    is not read. With a tooltip and a null frame it returns as well,
    without reading any geometry: the rectangle is the literal
    (-1, -1, -1), the three writes that precede the branch are computed
    from it, and the branch then pins the tooltip to the viewport. The
    maximal width computed from the literal, -1 - 40 pixels, is negative
    and the element keeps the maximal width it had. *)
Theorem setTooltipPosition_null_arguments :
  (forall w frame isHiddenFrame selectedFrame,
      setTooltipPosition w None frame isHiddenFrame selectedFrame
      = mkEffect None 0)
  /\ frameRect None = mkRect (-1) (-1) (-1)
  /\ (forall w t isHiddenFrame selectedFrame,
         exists t',
           setTooltipPosition w (Some t) None isHiddenFrame selectedFrame
           = mkEffect (Some t') 0
           /\ t' = pinTopRight
                     (set_left (css_px (-1 + scrollX w))
                        (set_top (css_px (-1 + scrollY w))
                           (set_maxWidth (css_px (-1 - 40)) t)))
           /\ style t'
              = mkStyle (style_maxWidth (style t)) css_zero css_auto (css_px 30)
           /\ classList t' = TokenList.add (classList t) "ps-fixed"
           /\ firstElementChild t'
              = option_map (fun l => TokenList.add l top_left_notch)
                           (firstElementChild t)).
Proof.
  split; [reflexivity|]. split; [reflexivity|].
  intros w t h sel. eexists. split; [reflexivity|].
  repeat split.
Qed.

End PlacementFacts.

(* ================================================================= *)
(** ** Properties of the content script *)

Module ControllerFacts.

Import Controller Notions.
Local Open Scope list_scope.

Local Arguments removeAllPopovers : simpl never.
Local Arguments insertOverlay : simpl never.
Local Arguments insertTooltip : simpl never.
Local Arguments abortInspection : simpl never.
Local Arguments postMessage : simpl never.
Local Arguments removeEventListeners : simpl never.
Local Arguments bodyHovers : simpl never.

(** *** Insertion only appends *)

Lemma extends_refl (s : State) : extends s s.
Proof.
  exists [], [], 0. split; [|reflexivity].
  destruct s; unfold extend; simpl.
  now rewrite !app_nil_r.
Qed.

Lemma extends_trans (a b c : State) :
  extends a b -> extends b c -> extends a c.
Proof.
  intros (p1 & c1 & n1 & -> & L1) (p2 & c2 & n2 & -> & L2).
  exists (p1 ++ p2), (c1 ++ c2), (n1 + n2). split.
  - unfold extend; simpl. rewrite !app_assoc. f_equal. lia.
  - rewrite !length_app. lia.
Qed.

Lemma extends_extend (s : State) ps cbs n :
  List.length cbs = List.length ps -> extends s (extend s ps cbs n).
Proof. intros L. now exists ps, cbs, n. Qed.

(** What the two insertions do, field by field. *)
Lemma insertOverlay_eq (frame : Frame) (s : State) :
  insertOverlay frame s
  = (Some (fresh s),
     extend s [Overlay (fresh s) frame]
       [mkCallback (S (fresh s)) (RepositionOverlay (Some (fresh s)) frame)]
       2).
Proof. reflexivity. Qed.

Lemma insertTooltip_eq frame v h response (s : State) :
  insertTooltip frame v h response s
  = (Some (fresh s),
     extend s [Tooltip (fresh s) frame v h]
       [mkCallback (S (fresh s))
          (RepositionTooltip (Some (fresh s)) frame (selectedFrame response))]
       2).
Proof. reflexivity. Qed.

Lemma insertOverlay_extends (frame : Frame) (s : State) :
  extends s (snd (insertOverlay frame s)).
Proof. rewrite insertOverlay_eq. now apply extends_extend. Qed.

Lemma insertTooltip_extends frame v h response (s : State) :
  extends s (snd (insertTooltip frame v h response s)).
Proof. rewrite insertTooltip_eq. now apply extends_extend. Qed.

Lemma fold_extends {A} (step : State -> A -> State) (l : list A) :
  (forall s a, extends s (step s a)) ->
  forall s, extends s (fold_left step l s).
Proof.
  intros Hstep. induction l as [|a l IH]; intros s; simpl.
  - apply extends_refl.
  - eapply extends_trans; [apply Hstep | apply IH].
Qed.

Lemma tooltipRound_extends env v h response acc frame :
  extends (snd (fst acc))
          (snd (fst (tooltipRound env v h response acc frame))).
Proof.
  destruct acc as [[pe s] i]. unfold tooltipRound.
  rewrite insertTooltip_eq.
  destruct (isFrameHidden env frame); simpl.
  - apply extends_refl.
  - now apply extends_extend.
Qed.

Lemma tooltipRounds_extend env v h response (l : list Frame) :
  forall acc,
    extends (snd (fst acc))
            (snd (fst (fold_left (tooltipRound env v h response) l acc))).
Proof.
  induction l as [|a l IH]; intros acc; simpl.
  - apply extends_refl.
  - eapply extends_trans; [apply tooltipRound_extends | apply IH].
Qed.

Lemma overlays_extend (frames : list Frame) (s : State) :
  extends s (fold_left (fun st frame => snd (insertOverlay frame st)) frames s).
Proof. apply fold_extends. intros; apply insertOverlay_extends. Qed.

Lemma visible_overlays_extend env (frames : list Frame) (s : State) :
  extends s
    (fold_left (fun st frame =>
                  if negb (isFrameHidden env frame)
                  then snd (insertOverlay frame st) else st) frames s).
Proof.
  apply fold_extends. intros s0 a.
  destruct (isFrameHidden env a); simpl;
    [apply extends_refl | apply insertOverlay_extends].
Qed.

Lemma handler_extends env frames v h response (s : State) :
  extends s (snd (insertPopoversConditionHandler env frames v h response s)).
Proof.
  unfold insertPopoversConditionHandler.
  destruct (Nat.eqb 0 h).
  - rewrite insertTooltip_eq. cbv zeta. cbn [snd].
    eapply extends_trans; [apply overlays_extend|].
    now apply extends_extend.
  - destruct (Nat.eqb 0 v).
    + destruct frames as [|frame rest]; cbv zeta; cbn [snd].
      * apply extends_refl.
      * eapply extends_trans;
          [apply (insertOverlay_extends frame) | apply insertTooltip_extends].
    + match goal with
      | |- context [fold_left (tooltipRound env v h response) frames ?acc] =>
          pose proof (tooltipRounds_extend env v h response frames acc) as H;
          destruct (fold_left (tooltipRound env v h response) frames acc)
            as [[pe s1] i]
      end.
      cbn [snd fst] in *. eapply extends_trans; [|exact H].
      apply visible_overlays_extend.
Qed.

(** Consequences of [extends] for the fields insertion leaves alone. *)
Lemma extends_fields (s s' : State) :
  extends s s' ->
  isHoveringOverPage s' = isHoveringOverPage s
  /\ hoveredFrame s' = hoveredFrame s
  /\ scrolledIntoView s' = scrolledIntoView s
  /\ posted s' = posted s
  /\ discovered s' = discovered s
  /\ listeners s' = listeners s
  /\ isInspecting s' = isInspecting s
  /\ highlighting s' = highlighting s.
Proof. intros (ps & cbs & n & -> & _). now repeat split. Qed.

(** *** Draining the registry *)

Lemma filter_all {A} (l : list A) : filter (fun _ => true) l = l.
Proof. induction l; simpl; congruence. Qed.

Lemma filter_filter {A} (p q : A -> bool) (l : list A) :
  filter p (filter q l) = filter (fun x => q x && p x) l.
Proof.
  induction l as [|a l IH]; simpl; [reflexivity|].
  destruct (q a); simpl; [destruct (p a)|]; now rewrite IH.
Qed.

Lemma remove_listeners_eq (l : list Callback) :
  forall s,
    fold_left (fun st listener => window_removeEventListener listener st) l s
    = set_windowScroll (filter (fun c => negb (held l c)) (windowScroll s)) s.
Proof.
  induction l as [|a l IH]; intros s; simpl.
  - destruct s; unfold set_windowScroll; simpl. now rewrite filter_all.
  - rewrite IH. unfold window_removeEventListener, set_windowScroll; simpl.
    rewrite filter_filter. f_equal. apply filter_ext. intros c.
    now rewrite negb_orb.
Qed.

(** [this.removeAllPopovers()] empties the registry, takes the
    registered function objects off the window and removes the
    popovers. *)
Lemma removeAllPopovers_eq (s : State) :
  removeAllPopovers s
  = mkState (port s) (isInspecting s) (isHoveringOverPage s)
      (bodyHoverStateSent s) [] (hoveredFrame s) (listeners s)
      (filter (fun c => negb (held (scrollEventListeners s) c)) (windowScroll s))
      [] (highlighting s) (posted s) (scrolledIntoView s) (discovered s)
      (fresh s).
Proof.
  unfold removeAllPopovers.
  destruct (scrollEventListeners s) as [|a l] eqn:E; simpl.
  - destruct s; simpl in *. subst. unfold Popovers.removeAllPopovers,
      set_popovers; simpl. now rewrite filter_all.
  - rewrite remove_listeners_eq. unfold window_removeEventListener; simpl.
    rewrite filter_filter.
    unfold Popovers.removeAllPopovers, set_popovers, set_scrollEventListeners,
      set_windowScroll; simpl.
    f_equal. apply filter_ext. intros c. now rewrite negb_orb.
Qed.

Lemma held_self (l : list Callback) :
  filter (fun c => negb (held l c)) l = [].
Proof.
  assert (H : forall m, incl m l -> filter (fun c => negb (held l c)) m = []).
  { induction m as [|a m IH]; intros Hm; simpl; [reflexivity|].
    assert (Ha : held l a = true).
    { unfold held. apply existsb_exists. exists a. split.
      - apply Hm. now left.
      - apply Nat.eqb_refl. }
    rewrite Ha. simpl. apply IH. intros x Hx. apply Hm. now right. }
  apply H, incl_refl.
Qed.

(** The module-level [removeAllPopovers] and [abortInspection] leave
    the registry and the window's scroll listeners as they are. *)
Lemma abortInspection_keeps_scroll_listeners (s : State) :
  scrollEventListeners (abortInspection s) = scrollEventListeners s
  /\ windowScroll (abortInspection s) = windowScroll s
  /\ popovers (abortInspection s) = [].
Proof. now repeat split. Qed.

(** C1 at a session that was told to inspect [https://a.test] and is
    then told to stop: the stop command removes the four popovers, yet
    the four scroll callbacks stay in the registry and on the window.
    The same holds after a disconnect and after a hover over the page
    body. *)
Theorem stop_inspecting_keeps_scroll_listeners :
  let s := Scenario.inspecting in
  let stopped := onMessage (Scenario.page false) Scenario.stop s in
  List.length (popovers s) = 4
  /\ List.length (scrollEventListeners s) = 4
  /\ popovers stopped = []
  /\ List.length (scrollEventListeners stopped) = 4
  /\ List.length (windowScroll stopped) = 4
  /\ List.length (scrollEventListeners (onDisconnect s)) = 4
  /\ (exists hovered,
         handleHoverEvent (Scenario.page false) Scenario.overBody s
         = Returned hovered
         /\ popovers hovered = []
         /\ List.length (scrollEventListeners hovered) = 4).
Proof.
  repeat split. eexists. repeat split.
Qed.

(** *** Failure of a post *)

Lemma abortInspection_eq (s : State) :
  abortInspection s
  = mkState (port s) false (isHoveringOverPage s) (bodyHoverStateSent s)
      (scrollEventListeners s) (hoveredFrame s)
      (listeners (removeEventListeners s)) (windowScroll s) [] false
      (posted s) (scrolledIntoView s) (discovered s) (fresh s).
Proof. reflexivity. Qed.

Lemma binding_eqb_sym (a b : Binding) : binding_eqb a b = binding_eqb b a.
Proof.
  unfold binding_eqb. rewrite (String.eqb_sym (b_type a)).
  now destruct (b_target a), (b_target b), (b_handler a), (b_handler b).
Qed.

Lemma removeEventListeners_eq (s : State) :
  listeners (removeEventListeners s)
  = filter (fun x => negb (existsb (binding_eqb x) hoverBindings)) (listeners s).
Proof.
  unfold removeEventListeners, removeEventListener,
    set_listeners, listeners.
  rewrite !filter_filter. apply filter_ext. intros x.
  unfold hoverBindings, existsb.
  rewrite !(binding_eqb_sym x).
  repeat match goal with
         | |- context [binding_eqb ?b x] => destruct (binding_eqb b x)
         end; reflexivity.
Qed.

(** Unfolding the class tests of [handleHoverEvent] for a target
    that is not one of the extension's own elements. *)
Ltac unmarked H :=
  unfold marked in H; unfold handleHoverEvent; rewrite H;
  cbv beta iota zeta.

Lemma abortInspection_spec (s : State) :
  isInspecting (abortInspection s) = false
  /\ popovers (abortInspection s) = []
  /\ highlighting (abortInspection s) = false
  /\ (forall b, In b hoverBindings -> ~ In b (listeners (abortInspection s)))
  /\ posted (abortInspection s) = posted s.
Proof.
  rewrite abortInspection_eq.
  cbn [isInspecting popovers highlighting listeners posted].
  repeat split.
  intros b Hb Hin. rewrite removeEventListeners_eq in Hin.
  apply filter_In in Hin. destruct Hin as [_ Hin].
  apply negb_true_iff in Hin.
  assert (existsb (binding_eqb b) hoverBindings = true); [|congruence].
  apply existsb_exists. exists b. split; [exact Hb|].
  unfold binding_eqb. rewrite String.eqb_refl.
  now destruct (b_target b), (b_handler b).
Qed.

(** When the post of the frame report throws, the handler catches the
    exception and aborts the inspection. *)
Lemma frame_hover_post_failure_aborts env event (s : State) p a o :
  postMessage_throws env = true -> runtime_id env = true ->
  isInspecting s = true -> port s = Some p ->
  onFrame env event ->
  src event = Some a -> truthy_string (Some a) = Some a ->
  a <> "about:blank" -> url_origin env a = Some o ->
  exists s',
    handleHoverEvent env event s = Returned s'
    /\ isInspecting s' = false
    /\ popovers s' = []
    /\ highlighting s' = false
    /\ (forall b, In b hoverBindings -> ~ In b (listeners s'))
    /\ posted s' = posted s.
Proof.
  intros Ht Hid Hi Hp [Htag Hm] Hsrc Ha Hab Ho.
  unmarked Hm. rewrite Htag, Hsrc.
  destruct (String.eqb_spec a "about:blank") as [->|_]; [congruence|].
  rewrite Ha, Ho, Hid. cbn. rewrite Hi, andb_false_r. cbn.
  rewrite Hi, Hp. cbn.
  unfold postMessage. rewrite Ht.
  eexists. split; [reflexivity|].
  match goal with
  | |- context [abortInspection ?st] =>
      destruct (abortInspection_spec st) as (H1 & H2 & H3 & H4 & H5)
  end.
  now repeat split.
Qed.

(** C2 at the body-hover report: the session inspects
    [https://a.test], the pointer moves over a [DIV] of the page and
    the post throws. The call leaves through the exception; the
    inspecting flag is still set, the five hover and visibility
    listeners are still bound, frame highlighting is still on and the
    debounce flag is not set. *)
Theorem body_hover_post_failure_propagates :
  exists s',
    handleHoverEvent (Scenario.page true) Scenario.overBody Scenario.inspecting
    = Thrown s'
    /\ isInspecting s' = true
    /\ listeners s' = hoverBindings
    /\ highlighting s' = true
    /\ bodyHoverStateSent s' = false.
Proof. eexists. repeat split. Qed.

(** *** The command that only clears *)

Lemma addEventListener_set (b : Binding) (s : State) :
  exists l, addEventListener b s = set_listeners l s.
Proof.
  unfold addEventListener.
  destruct (existsb (binding_eqb b) (listeners s)).
  - exists (listeners s). now destruct s.
  - eexists. reflexivity.
Qed.

Lemma addEventListeners_eq (s : State) :
  addEventListeners s = set_listeners (listeners (addEventListeners s)) s.
Proof.
  assert (H : exists l, addEventListeners s = set_listeners l s).
  { unfold addEventListeners. cbv zeta.
    destruct (addEventListener_set
                (mkBinding Document "mouseover" HandleHoverEvent) s)
      as [l1 ->].
    destruct (addEventListener_set
                (mkBinding Document "mouseout" HandleHoverEvent)
                (set_listeners l1 s)) as [l2 ->].
    destruct (addEventListener_set
                (mkBinding Document "visibilitychange" HandleMouseMove)
                (set_listeners l2 (set_listeners l1 s))) as [l3 ->].
    destruct (addEventListener_set
                (mkBinding DocElement "mouseleave" HandleMouseMove)
                (set_listeners l3 (set_listeners l2 (set_listeners l1 s))))
      as [l4 ->].
    destruct (addEventListener_set
                (mkBinding DocElement "mouseenter" HandleMouseMove)
                (set_listeners l4 (set_listeners l3 (set_listeners l2
                   (set_listeners l1 s))))) as [l5 ->].
    now exists l5. }
  destruct H as [l ->]. reflexivity.
Qed.

Lemma removeEventListeners_state (s : State) :
  removeEventListeners s = set_listeners (listeners (removeEventListeners s)) s.
Proof. reflexivity. Qed.

(** C7: a command that carries [removeAllFramePopovers] and no
    [selectedFrame] leaves no popover in the document, posts nothing,
    looks up no frame and scrolls nothing. *)
Theorem clear_command_is_noop env response (s : State) :
  truthy_bool (removeAllFramePopovers response) = true ->
  truthy_string (selectedFrame response) = None ->
  let s' := onMessage env response s in
  popovers s' = []
  /\ posted s' = posted s
  /\ discovered s' = discovered s
  /\ scrolledIntoView s' = scrolledIntoView s.
Proof.
  intros Hr Hs. unfold onMessage.
  destruct (isInspecting_r response).
  - unfold insertPopovers. rewrite Hr, Hs. cbv zeta.
    rewrite addEventListeners_eq, removeEventListeners_state.
    repeat split.
  - rewrite abortInspection_eq. repeat split.
Qed.

Lemma clear_command_is_noop_witness :
  let s' := onMessage (Scenario.page false) Scenario.clear Scenario.inspecting in
  popovers s' = []
  /\ posted s' = posted Scenario.inspecting
  /\ discovered s' = discovered Scenario.inspecting
  /\ scrolledIntoView s' = scrolledIntoView Scenario.inspecting.
Proof.
  apply (clear_command_is_noop (Scenario.page false) Scenario.clear
           Scenario.inspecting); reflexivity.
Defined.

(** *** Hover over a frame without an address *)

(** C9: while inspecting with a live session, a hover over an iframe
    whose [src] is absent, empty or [about:blank] renders one overlay
    and one tooltip for that frame with the counts 1 and 0, and posts
    the report with the empty origin and [isNullSetFromHover] set. *)
Theorem blank_frame_hover_renders_and_reports env event (s : State) p :
  live env ->
  isInspecting s = true -> port s = Some p ->
  onFrame env event ->
  src event = None \/ src event = Some "" \/ src event = Some "about:blank" ->
  exists s',
    handleHoverEvent env event s = Returned s'
    /\ popovers s'
       = [Overlay (fresh s) (target event);
          Tooltip (S (S (fresh s))) (Some (target event)) 1 0]
    /\ posted s' = posted s ++ [FrameHover "" true]
    /\ isInspecting s' = true.
Proof.
  intros [Hid Ht] Hi Hp [Htag Hm] Hsrc.
  unmarked Hm. rewrite Htag.
  assert (Hfalsy :
    truthy_string
      match src event with
      | Some a => if String.eqb a "about:blank" then Some "" else Some a
      | None => None
      end = None).
  { destruct Hsrc as [->|[->| ->]]; reflexivity. }
  rewrite Hfalsy, Hid. cbn. rewrite Hi, andb_false_r. cbn.
  rewrite Hi. cbn.
  rewrite removeAllPopovers_eq, insertOverlay_eq. cbn.
  rewrite insertTooltip_eq. cbn.
  rewrite Hp. cbn. unfold postMessage. cbn. rewrite Ht.
  eexists. split; [reflexivity|]. cbn. rewrite Hi. now repeat split.
Qed.

Lemma blank_frame_hover_renders_and_reports_witness :
  exists s',
    handleHoverEvent (Scenario.page false) Scenario.overBlankFrame
      Scenario.inspecting = Returned s'
    /\ popovers s' = [Overlay 8 9; Tooltip 10 (Some 9) 1 0]
    /\ posted s' = posted Scenario.inspecting ++ [FrameHover "" true]
    /\ isInspecting s' = true.
Proof.
  apply (blank_frame_hover_renders_and_reports (Scenario.page false)
           Scenario.overBlankFrame Scenario.inspecting 7).
  - split; reflexivity.
  - reflexivity.
  - reflexivity.
  - split; reflexivity.
  - right; right; reflexivity.
Defined.

(** *** Automatic scroll *)

Lemma drained_fields (selected : string) (s : State) :
  isHoveringOverPage (drained selected s) = isHoveringOverPage s
  /\ hoveredFrame (drained selected s) = hoveredFrame s
  /\ scrolledIntoView (drained selected s) = scrolledIntoView s
  /\ posted (drained selected s) = posted s
  /\ listeners (drained selected s) = listeners s
  /\ popovers (drained selected s) = []
  /\ scrollEventListeners (drained selected s) = [].
Proof. unfold drained. rewrite removeAllPopovers_eq. now repeat split. Qed.

(** [insertPopovers] for a selected origin that matches a frame. *)
Lemma insertPopovers_selected env response (s : State) selected
    frameToScrollTo rest :
  truthy_string (selectedFrame response) = Some selected ->
  findSelectedFrameElements env selected = frameToScrollTo :: rest ->
  insertPopovers env response s
  = let (popoverElement, s1) := handlerCall env response selected s in
    match firstToolTip popoverElement with
    | Some tip =>
        if negb (isHoveringOverPage s1)
           && negb (Z.eqb (clientWidth env frameToScrollTo) 0)
           && negb (isElementVisibleInViewport env
                      (frameWithTooltip popoverElement) false)
        then scrollIntoView tip s1
        else s1
    | None => s1
    end.
Proof.
  intros Hsel Hfound. unfold insertPopovers, handlerCall, drained.
  rewrite Hsel, Hfound. cbn [is_some negb]. rewrite andb_false_r.
  reflexivity.
Qed.

(** In every other path nothing is scrolled. *)
Lemma insertPopovers_no_scroll env response (s : State) :
  (truthy_string (selectedFrame response) = None
   \/ exists selected,
        truthy_string (selectedFrame response) = Some selected
        /\ findSelectedFrameElements env selected = []) ->
  scrolledIntoView (insertPopovers env response s) = scrolledIntoView s.
Proof.
  intros [Hnone | (selected & Hsel & Hfound)]; unfold insertPopovers.
  - rewrite Hnone. now destruct (truthy_bool (removeAllFramePopovers response)).
  - rewrite Hsel, Hfound. cbn [is_some negb]. rewrite andb_false_r.
    cbn [Utils.getFrameCount Utils.numberOfFrames List.length Nat.eqb].
    rewrite removeAllPopovers_eq, insertTooltip_eq. reflexivity.
Qed.

Lemma app_one_neq {A} (l : list A) (a : A) : l ++ [a] <> l.
Proof.
  intros H. apply (f_equal (@List.length A)) in H.
  rewrite length_app in H. simpl in H. lia.
Qed.

(** The scroll decision when [insertPopovers] reaches the handler. *)
Lemma autoScroll_selected env response (s : State) selected
    frameToScrollTo rest :
  truthy_string (selectedFrame response) = Some selected ->
  findSelectedFrameElements env selected = frameToScrollTo :: rest ->
  let popoverElement := fst (handlerCall env response selected s) in
  let s' := insertPopovers env response s in
  (scrolledIntoView s' <> scrolledIntoView s
   <-> exists tip,
         firstToolTip popoverElement = Some tip
         /\ isHoveringOverPage s = false
         /\ clientWidth env frameToScrollTo <> 0%Z
         /\ isElementVisibleInViewport env
              (frameWithTooltip popoverElement) false = false)
  /\ (scrolledIntoView s' = scrolledIntoView s
      \/ exists tip,
           firstToolTip popoverElement = Some tip
           /\ scrolledIntoView s' = scrolledIntoView s ++ [tip]).
Proof.
  intros Hsel Hfound popoverElement s'. subst popoverElement s'.
  rewrite (insertPopovers_selected _ _ _ _ _ _ Hsel Hfound).
  pose proof (handler_extends env (findSelectedFrameElements env selected)
                (Utils.numberOfVisibleFrames
                   (Utils.getFrameCount env
                      (findSelectedFrameElements env selected)))
                (Utils.numberOfHiddenFrames
                   (Utils.getFrameCount env
                      (findSelectedFrameElements env selected)))
                response (drained selected s)) as He.
  fold (handlerCall env response selected s) in He.
  apply extends_fields in He. destruct He as (Hh & _ & Hsc & _).
  destruct (drained_fields selected s) as (Hh0 & _ & Hsc0 & _).
  rewrite Hh0 in Hh. rewrite Hsc0 in Hsc.
  destruct (handlerCall env response selected s) as [pe s1].
  cbn [fst snd] in *.
  destruct (firstToolTip pe) as [tip|].
  - rewrite Hh.
    destruct (isHoveringOverPage s); cbn [negb andb].
    + rewrite Hsc. split; [|now left]. split; [congruence|].
      intros (t & _ & Hf & _). discriminate.
    + destruct (Z.eqb_spec (clientWidth env frameToScrollTo) 0) as [Hw|Hw];
        cbn [negb andb].
      * rewrite Hsc. split; [|now left]. split; [congruence|].
        intros (t & _ & _ & Hnz & _). contradiction.
      * destruct (isElementVisibleInViewport env (frameWithTooltip pe) false)
          eqn:Hv; cbn [negb].
        -- rewrite Hsc. split; [|now left]. split; [congruence|].
           intros (t & _ & _ & _ & Hf). discriminate.
        -- unfold scrollIntoView. cbn [scrolledIntoView set_scrolledIntoView].
           rewrite Hsc. split.
           ++ split; [|intros _; apply app_one_neq].
              intros _. now exists tip.
           ++ right. now exists tip.
  - rewrite Hsc. split; [|now left]. split; [congruence|].
    intros (t & Hf & _). discriminate.
Qed.

(** *** Hover debounce *)

Lemma hoverAll_app (a b : list (Env * MouseEvent)) :
  forall s, hoverAll (a ++ b) s = bind (hoverAll a s) (hoverAll b).
Proof.
  induction a as [|[env event] a IH]; intros s; simpl; [reflexivity|].
  destruct (handleHoverEvent env event s); simpl; [apply IH | reflexivity].
Qed.

(** The first hover over the body in a run posts the report and sets
    the debounce flag. *)
Lemma body_hover_first env event (s : State) p :
  live env -> onBody env event ->
  isInspecting s = true -> port s = Some p -> bodyHoverStateSent s = false ->
  exists s',
    handleHoverEvent env event s = Returned s'
    /\ posted s' = posted s ++ [BodyHover]
    /\ bodyHoverStateSent s' = true
    /\ isInspecting s' = true
    /\ port s' = Some p.
Proof.
  intros [Hid Ht] [Htag Hm] Hi Hp Hb.
  unmarked Hm. rewrite Htag, Hid. cbn. rewrite Hb, Hi, Hp. cbn.
  unfold postMessage. rewrite Ht. cbn. rewrite Hi. cbn.
  eexists. split; [reflexivity|]. now repeat split.
Qed.

(** With the flag set, a hover over the body posts nothing. *)
Lemma body_hover_next env event (s : State) :
  onBody env event -> bodyHoverStateSent s = true ->
  exists s',
    handleHoverEvent env event s = Returned s'
    /\ posted s' = posted s
    /\ bodyHoverStateSent s' = true
    /\ isInspecting s' = isInspecting s
    /\ port s' = port s.
Proof.
  intros [Htag Hm] Hb.
  unmarked Hm. rewrite Htag. cbn. rewrite Hb. cbn. rewrite orb_true_r.
  eexists. split; [reflexivity|]. now repeat split.
Qed.

Lemma body_run_sent (events : list (Env * MouseEvent)) :
  Forall (fun e => live (fst e) /\ onBody (fst e) (snd e)) events ->
  forall s,
    bodyHoverStateSent s = true ->
    exists s',
      hoverAll events s = Returned s'
      /\ posted s' = posted s
      /\ bodyHoverStateSent s' = true
      /\ isInspecting s' = isInspecting s
      /\ port s' = port s.
Proof.
  induction 1 as [|[env event] events [_ Hbody] _ IH]; intros s Hb.
  - now exists s.
  - destruct (body_hover_next env event s Hbody Hb)
      as (s1 & E1 & P1 & B1 & I1 & Q1).
    destruct (IH s1 B1) as (s2 & E2 & P2 & B2 & I2 & Q2).
    exists s2. simpl. rewrite E1. simpl. rewrite E2.
    repeat split; congruence.
Qed.

(** A run of hovers over the body that starts with the flag clear
    posts exactly one report. *)
Lemma body_run_once (events : list (Env * MouseEvent)) (s : State) p :
  events <> [] ->
  Forall (fun e => live (fst e) /\ onBody (fst e) (snd e)) events ->
  isInspecting s = true -> port s = Some p -> bodyHoverStateSent s = false ->
  exists s',
    hoverAll events s = Returned s'
    /\ posted s' = posted s ++ [BodyHover]
    /\ bodyHoverStateSent s' = true
    /\ isInspecting s' = true
    /\ port s' = Some p.
Proof.
  intros Hne Hall Hi Hp Hb.
  destruct events as [|[env event] events]; [contradiction|].
  inversion Hall as [|? ? [Hlive Hbody] Hrest]; subst.
  destruct (body_hover_first env event s p Hlive Hbody Hi Hp Hb)
    as (s1 & E1 & P1 & B1 & I1 & Q1).
  destruct (body_run_sent events Hrest s1 B1) as (s2 & E2 & P2 & B2 & I2 & Q2).
  exists s2. simpl. rewrite E1. simpl. rewrite E2.
  repeat split; congruence.
Qed.

(** A hover over a frame clears the flag and posts no body-hover
    report. *)
Lemma frame_hover_clears_flag env event (s : State) p :
  live env -> onFrame env event ->
  isInspecting s = true -> port s = Some p ->
  exists s',
    handleHoverEvent env event s = Returned s'
    /\ bodyHovers (posted s') = bodyHovers (posted s)
    /\ bodyHoverStateSent s' = false
    /\ isInspecting s' = true
    /\ port s' = Some p.
Proof.
  intros [Hid Ht] [Htag Hm] Hi Hp.
  assert (Hcount : forall o n,
             bodyHovers (posted s ++ [FrameHover o n]) = bodyHovers (posted s)).
  { intros o n. unfold bodyHovers. rewrite filter_app. simpl.
    now rewrite app_nil_r. }
  unmarked Hm. rewrite Htag, Hid. cbn. rewrite Hi, andb_false_r. cbn.
  rewrite Hi. cbn.
  match goal with
  | |- context [truthy_string ?x] => destruct (truthy_string x) as [a|] eqn:Hsrc
  end.
  - destruct (url_origin env a) as [o|].
    + cbn. rewrite Hp. cbn. unfold postMessage. rewrite Ht.
      eexists. split; [reflexivity|]. cbn. rewrite Hi, Hp, Hcount.
      now repeat split.
    + eexists. split; [reflexivity|]. cbn. rewrite Hi, Hp. now repeat split.
  - rewrite removeAllPopovers_eq, insertOverlay_eq. cbn.
    rewrite insertTooltip_eq. cbn. rewrite Hp. cbn.
    unfold postMessage. cbn. rewrite Ht.
    eexists. split; [reflexivity|]. cbn. rewrite Hi, Hcount.
    now repeat split.
Qed.

Lemma bodyHovers_snoc (l : list OutMsg) :
  bodyHovers (l ++ [BodyHover]) = S (bodyHovers l).
Proof.
  unfold bodyHovers. rewrite filter_app, length_app. simpl. lia.
Qed.

(** A run of hovers over the body posts the report unless the flag
    was already set when it began. *)
Lemma body_run_any (events : list (Env * MouseEvent)) (s : State) p :
  events <> [] ->
  Forall (fun e => live (fst e) /\ onBody (fst e) (snd e)) events ->
  isInspecting s = true -> port s = Some p ->
  exists s',
    hoverAll events s = Returned s'
    /\ posted s'
       = posted s ++ (if bodyHoverStateSent s then [] else [BodyHover])
    /\ bodyHoverStateSent s' = true
    /\ isInspecting s' = true
    /\ port s' = Some p.
Proof.
  intros Hne Hall Hi Hp.
  destruct (bodyHoverStateSent s) eqn:Hb.
  - destruct (body_run_sent events Hall s Hb) as (s1 & E1 & P1 & B1 & I1 & Q1).
    exists s1. rewrite app_nil_r. repeat split; congruence.
  - exact (body_run_once events s p Hne Hall Hi Hp Hb).
Qed.

(** C6 as amended: while inspecting with a live session, a run of
    hovers over elements of the page body posts exactly one body-hover
    report, whatever its length, when the debounce flag is clear as the
    run begins, and none when the flag is still set from an earlier
    hover over the body; a hover over a frame then clears the flag
    without posting a body-hover report, and the run of body hovers
    that follows posts exactly one more. *)
Theorem body_hover_debounce
    (bodyRun : list (Env * MouseEvent)) (frameHover : Env * MouseEvent)
    (bodyRun' : list (Env * MouseEvent)) (s : State) p :
  isInspecting s = true -> port s = Some p ->
  bodyRun <> [] -> bodyRun' <> [] ->
  Forall (fun e => live (fst e) /\ onBody (fst e) (snd e)) bodyRun ->
  live (fst frameHover) /\ onFrame (fst frameHover) (snd frameHover) ->
  Forall (fun e => live (fst e) /\ onBody (fst e) (snd e)) bodyRun' ->
  (exists s1,
      hoverAll bodyRun s = Returned s1
      /\ posted s1
         = posted s ++ (if bodyHoverStateSent s then [] else [BodyHover])
      /\ bodyHoverStateSent s1 = true)
  /\ (exists s2,
         hoverAll (bodyRun ++ [frameHover]) s = Returned s2
         /\ bodyHovers (posted s2)
            = bodyHovers (posted s) + (if bodyHoverStateSent s then 0 else 1)
         /\ bodyHoverStateSent s2 = false)
  /\ (exists s3,
         hoverAll (bodyRun ++ frameHover :: bodyRun') s = Returned s3
         /\ bodyHovers (posted s3)
            = bodyHovers (posted s)
              + (if bodyHoverStateSent s then 0 else 1) + 1
         /\ bodyHoverStateSent s3 = true).
Proof.
  intros Hi Hp Hne Hne' Hrun [Hlive Hframe] Hrun'.
  destruct (body_run_any bodyRun s p Hne Hrun Hi Hp)
    as (s1 & E1 & P1 & B1 & I1 & Q1).
  destruct frameHover as [env event]. cbn [fst snd] in *.
  destruct (frame_hover_clears_flag env event s1 p Hlive Hframe I1 Q1)
    as (s2 & E2 & P2 & B2 & I2 & Q2).
  destruct (body_run_any bodyRun' s2 p Hne' Hrun' I2 Q2)
    as (s3 & E3 & P3 & B3 & I3 & Q3).
  rewrite B2 in P3.
  assert (C2 : bodyHovers (posted s2)
               = bodyHovers (posted s)
                 + (if bodyHoverStateSent s then 0 else 1)).
  { rewrite P2, P1. destruct (bodyHoverStateSent s).
    - rewrite app_nil_r. lia.
    - rewrite bodyHovers_snoc. lia. }
  split; [|split].
  - exists s1. now repeat split.
  - exists s2. rewrite hoverAll_app, E1. simpl. rewrite E2. now repeat split.
  - exists s3. rewrite hoverAll_app, E1. simpl. rewrite E2. simpl.
    rewrite E3. repeat split; [|exact B3].
    rewrite P3, bodyHovers_snoc. lia.
Qed.

Lemma body_hover_debounce_witness :
  let env := Scenario.page false in
  let body := [(env, Scenario.overBody); (env, Scenario.overBody)] in
  let s := Scenario.restarted in
  (exists s1,
      hoverAll body s = Returned s1
      /\ posted s1
         = posted s ++ (if bodyHoverStateSent s then [] else [BodyHover])
      /\ bodyHoverStateSent s1 = true)
  /\ (exists s2,
         hoverAll (body ++ [(env, Scenario.overAdFrame)]) s = Returned s2
         /\ bodyHovers (posted s2)
            = bodyHovers (posted s) + (if bodyHoverStateSent s then 0 else 1)
         /\ bodyHoverStateSent s2 = false)
  /\ (exists s3,
         hoverAll (body ++ (env, Scenario.overAdFrame) :: body) s = Returned s3
         /\ bodyHovers (posted s3)
            = bodyHovers (posted s)
              + (if bodyHoverStateSent s then 0 else 1) + 1
         /\ bodyHoverStateSent s3 = true).
Proof.
  intros env body s.
  apply (body_hover_debounce body (env, Scenario.overAdFrame) body s 7).
  - vm_compute. reflexivity.
  - vm_compute. reflexivity.
  - discriminate.
  - discriminate.
  - repeat constructor.
  - repeat constructor.
  - repeat constructor.
Defined.

(** C6 as worded fails after a restart. The panel starts the
    inspection, the pointer moves over the body (one report, flag set),
    the panel stops and starts the inspection again: no command clears
    the flag, so the script is inspecting with a live session and the
    popovers of the second start on the page, and the next run of hovers
    over the body posts no report at all and leaves the four popovers. *)
Lemma body_hover_after_restart_counterexample :
  let env := Scenario.page false in
  let body := [(env, Scenario.overBody); (env, Scenario.overBody)] in
  let s := Scenario.restarted in
  isInspecting s = true /\ port s = Some 7 /\ live env
  /\ onBody env Scenario.overBody
  /\ bodyHoverStateSent s = true
  /\ List.length (popovers s) = 4
  /\ exists s1,
       hoverAll body s = Returned s1
       /\ posted s1 = posted s
       /\ bodyHovers (posted s1) = bodyHovers (posted s)
       /\ popovers s1 = popovers s.
Proof.
  vm_compute. repeat split. eexists. repeat split.
Qed.

(** *** Two start commands in a row *)

Lemma alike_extend (s t : State) ps ps' cbs cbs' n n' :
  alike s t ->
  rendered ps = rendered ps' -> tracked cbs = tracked cbs' ->
  alike (extend s ps cbs n) (extend t ps' cbs' n').
Proof.
  intros (Hh & Hp & Hc) Hps Hcbs. unfold alike, extend, rendered, tracked in *.
  cbn [hoveredFrame popovers scrollEventListeners].
  rewrite !map_app. repeat split; congruence.
Qed.

Lemma insertOverlay_alike frame (s t : State) :
  alike s t -> alike (snd (insertOverlay frame s)) (snd (insertOverlay frame t)).
Proof.
  intros H. rewrite !insertOverlay_eq. cbn [snd].
  now apply alike_extend.
Qed.

Lemma insertTooltip_alike frame v h response (s t : State) :
  alike s t ->
  alike (snd (insertTooltip frame v h response s))
        (snd (insertTooltip frame v h response t)).
Proof.
  intros H. rewrite !insertTooltip_eq. cbn [snd].
  now apply alike_extend.
Qed.

Lemma fold_alike {A} (step : State -> A -> State) (l : list A) :
  (forall s t a, alike s t -> alike (step s a) (step t a)) ->
  forall s t, alike s t -> alike (fold_left step l s) (fold_left step l t).
Proof.
  intros Hstep. induction l as [|a l IH]; intros s t H; simpl.
  - exact H.
  - apply IH, Hstep, H.
Qed.

Lemma tooltipRounds_alike env v h response (l : list Frame) :
  forall acc acc',
    alike (snd (fst acc)) (snd (fst acc')) ->
    alike (snd (fst (fold_left (tooltipRound env v h response) l acc)))
          (snd (fst (fold_left (tooltipRound env v h response) l acc'))).
Proof.
  induction l as [|a l IH]; intros acc acc' H; simpl; [exact H|].
  apply IH. destruct acc as [[pe s] i], acc' as [[pe' s'] i'].
  unfold tooltipRound. rewrite !insertTooltip_eq.
  destruct (isFrameHidden env a); cbn [negb fst snd] in *; [exact H|].
  now apply alike_extend.
Qed.

(** The handler renders the same popovers from states that are alike. *)
Lemma handler_alike env frames v h response (s t : State) :
  alike s t ->
  alike (snd (insertPopoversConditionHandler env frames v h response s))
        (snd (insertPopoversConditionHandler env frames v h response t)).
Proof.
  intros H. unfold insertPopoversConditionHandler.
  destruct (Nat.eqb 0 h).
  - assert (Ho : alike
               (fold_left (fun st frame => snd (insertOverlay frame st)) frames s)
               (fold_left (fun st frame => snd (insertOverlay frame st)) frames t)).
    { apply fold_alike; [|exact H]. intros; now apply insertOverlay_alike. }
    rewrite !insertTooltip_eq. cbv zeta. cbn [snd].
    destruct Ho as (Hh & Hp & Hc). rewrite Hh.
    apply alike_extend; [now repeat split | reflexivity | reflexivity].
  - destruct (Nat.eqb 0 v).
    + destruct frames as [|frame rest]; cbv zeta; cbn [snd]; [exact H|].
      now apply insertTooltip_alike, insertOverlay_alike.
    + set (so := fold_left
                   (fun st frame =>
                      if negb (isFrameHidden env frame)
                      then snd (insertOverlay frame st) else st) frames s).
      set (to := fold_left
                   (fun st frame =>
                      if negb (isFrameHidden env frame)
                      then snd (insertOverlay frame st) else st) frames t).
      assert (Ho : alike so to).
      { apply fold_alike; [|exact H]. intros s0 t0 a Hst.
        destruct (isFrameHidden env a); cbn [negb];
          [exact Hst | now apply insertOverlay_alike]. }
      pose proof (tooltipRounds_alike env v h response frames
                    (mkPopoverElement None None, so, 0)
                    (mkPopoverElement None None, to, 0) Ho) as Hr.
      destruct (fold_left (tooltipRound env v h response) frames
                  (mkPopoverElement None None, so, 0)) as [[pe1 s1] i1].
      destruct (fold_left (tooltipRound env v h response) frames
                  (mkPopoverElement None None, to, 0)) as [[pe2 s2] i2].
      exact Hr.
Qed.

Lemma extends_synced (s s' : State) :
  synced s -> extends s s' -> synced s'.
Proof.
  unfold synced. intros Hs (ps & cbs & n & -> & _).
  cbn [extend windowScroll scrollEventListeners]. now rewrite Hs.
Qed.

Lemma drained_synced selected (s : State) :
  synced s -> synced (drained selected s).
Proof.
  unfold synced, drained. intros Hs. rewrite removeAllPopovers_eq.
  cbn [windowScroll scrollEventListeners set_discovered].
  rewrite Hs. apply held_self.
Qed.

Lemma inserted_extends env response selected (s : State) :
  extends (drained selected s) (inserted env response selected s).
Proof.
  unfold inserted, handlerCall.
  destruct (findSelectedFrameElements env selected).
  - apply insertTooltip_extends.
  - apply handler_extends.
Qed.

Lemma inserted_alike env response selected (s t : State) :
  hoveredFrame s = hoveredFrame t ->
  alike (inserted env response selected s) (inserted env response selected t).
Proof.
  intros Hh.
  assert (Hd : alike (drained selected s) (drained selected t)).
  { destruct (drained_fields selected s) as (_ & H1 & _ & _ & _ & P1 & R1).
    destruct (drained_fields selected t) as (_ & H2 & _ & _ & _ & P2 & R2).
    unfold alike. rewrite H1, H2, P1, P2, R1, R2. now repeat split. }
  unfold inserted, handlerCall.
  destruct (findSelectedFrameElements env selected).
  - now apply insertTooltip_alike.
  - now apply handler_alike.
Qed.

(** [insertPopovers] for a selected origin ends in the state
    [inserted], up to the scroll of the primary tooltip. *)
Lemma insertPopovers_view env response selected (s : State) :
  truthy_string (selectedFrame response) = Some selected ->
  view (insertPopovers env response s) = view (inserted env response selected s).
Proof.
  intros Hsel. unfold inserted.
  destruct (findSelectedFrameElements env selected) as [|f0 rest] eqn:Hfound.
  - unfold insertPopovers, drained. rewrite Hsel, Hfound.
    cbn [is_some negb]. rewrite andb_false_r. reflexivity.
  - rewrite (insertPopovers_selected _ _ _ _ _ _ Hsel Hfound).
    destruct (handlerCall env response selected s) as [pe s1]. cbn [snd].
    destruct (firstToolTip pe); [|reflexivity].
    match goal with
    | |- context [if ?b then _ else _] => destruct b
    end; reflexivity.
Qed.

(** The bindings after [removeEventListeners] and [addEventListeners]:
    the foreign ones, then the five of the class, each once. *)
Lemma foreign_filter_absent (l : list Binding) (b : Binding) :
  In b hoverBindings -> existsb (binding_eqb b) (filter foreign l) = false.
Proof.
  intros Hb. apply not_true_is_false. intros H.
  apply existsb_exists in H. destruct H as (x & Hx & Hbx).
  apply filter_In in Hx. destruct Hx as [_ Hx].
  unfold foreign in Hx. apply negb_true_iff in Hx.
  assert (existsb (binding_eqb x) hoverBindings = true); [|congruence].
  apply existsb_exists. exists b. split; [exact Hb|].
  now rewrite binding_eqb_sym.
Qed.

Lemma addEventListener_new (b : Binding) (s : State) :
  existsb (binding_eqb b) (listeners s) = false ->
  listeners (addEventListener b s) = listeners s ++ [b].
Proof. intros H. unfold addEventListener. now rewrite H. Qed.

Lemma addEventListeners_absent (s : State) :
  (forall b, In b hoverBindings -> existsb (binding_eqb b) (listeners s) = false) ->
  listeners (addEventListeners s) = listeners s ++ hoverBindings.
Proof.
  intros H. unfold addEventListeners. cbv zeta.
  set (b1 := mkBinding Document "mouseover" HandleHoverEvent).
  set (b2 := mkBinding Document "mouseout" HandleHoverEvent).
  set (b3 := mkBinding Document "visibilitychange" HandleMouseMove).
  set (b4 := mkBinding DocElement "mouseleave" HandleMouseMove).
  set (b5 := mkBinding DocElement "mouseenter" HandleMouseMove).
  assert (H1 : listeners (addEventListener b1 s) = listeners s ++ [b1]).
  { apply addEventListener_new, H. simpl; tauto. }
  assert (H2 : listeners (addEventListener b2 (addEventListener b1 s))
               = listeners s ++ [b1; b2]).
  { rewrite addEventListener_new; rewrite H1.
    - now rewrite <- app_assoc.
    - rewrite existsb_app, H by (simpl; tauto). reflexivity. }
  assert (H3 : listeners (addEventListener b3
                 (addEventListener b2 (addEventListener b1 s)))
               = listeners s ++ [b1; b2; b3]).
  { rewrite addEventListener_new; rewrite H2.
    - now rewrite <- app_assoc.
    - rewrite existsb_app, H by (simpl; tauto). reflexivity. }
  assert (H4 : listeners (addEventListener b4 (addEventListener b3
                 (addEventListener b2 (addEventListener b1 s))))
               = listeners s ++ [b1; b2; b3; b4]).
  { rewrite addEventListener_new; rewrite H3.
    - now rewrite <- app_assoc.
    - rewrite existsb_app, H by (simpl; tauto). reflexivity. }
  rewrite addEventListener_new; rewrite H4.
  - now rewrite <- app_assoc.
  - rewrite existsb_app, H by (simpl; tauto). reflexivity.
Qed.

Lemma filter_foreign_idem (l : list Binding) :
  filter foreign (filter foreign l ++ hoverBindings) = filter foreign l.
Proof.
  rewrite filter_app, filter_filter.
  replace (filter foreign hoverBindings) with (@nil Binding) by reflexivity.
  rewrite app_nil_r. apply filter_ext. intros x. now destruct (foreign x).
Qed.

(** The state before [insertPopovers] when the command says to
    inspect. *)
Lemma prepared_eq (s : State) :
  prepared s
  = mkState (port s) true (isHoveringOverPage s) (bodyHoverStateSent s)
      (scrollEventListeners s) (hoveredFrame s)
      (filter foreign (listeners s) ++ hoverBindings) (windowScroll s)
      (popovers s) true (posted s) (scrolledIntoView s) (discovered s)
      (fresh s).
Proof.
  unfold prepared. rewrite addEventListeners_eq.
  rewrite addEventListeners_absent.
  - rewrite removeEventListeners_eq. reflexivity.
  - intros b Hb. rewrite removeEventListeners_eq.
    now apply foreign_filter_absent.
Qed.

Lemma onMessage_start env response (s : State) :
  isInspecting_r response = true ->
  onMessage env response s = insertPopovers env response (prepared s).
Proof. intros H. unfold onMessage, prepared. now rewrite H. Qed.

(** A start command keeps registry and window in step. *)
Lemma onMessage_start_synced env response (s : State) :
  isInspecting_r response = true ->
  synced s -> synced (onMessage env response s).
Proof.
  intros Hr Hs. rewrite (onMessage_start _ _ _ Hr).
  assert (Hp : synced (prepared s)).
  { unfold synced in *. now rewrite prepared_eq. }
  generalize dependent (prepared s). clear s Hs. intros q Hq.
  destruct (truthy_string (selectedFrame response)) as [selected|] eqn:Hsel.
  - pose proof (insertPopovers_view env response selected q Hsel) as Hv.
    unfold view in Hv. injection Hv as _ _ Hreg Hwin _ _ _.
    unfold synced. rewrite Hwin, Hreg.
    apply (extends_synced (drained selected q));
      [now apply drained_synced | apply inserted_extends].
  - unfold insertPopovers. rewrite Hsel.
    destruct (truthy_bool (removeAllFramePopovers response));
      cbn [is_some negb andb]; exact Hq.
Qed.

(** C8 as amended: a start command processed a second time, with the
    page as it is by then, leaves the rendered popover set and the
    tracked scroll callbacks that the command alone would leave on that
    page: nothing of the first processing stays, nothing is rendered
    twice. The bindings of the hover and visibility listeners are those
    the first processing left: the five of the class, each once, after
    whatever else was bound. When the page is the same at both commands
    the second processing therefore changes none of them. *)
Theorem start_inspecting_idempotent env env' response (s : State) :
  isInspecting_r response = true ->
  synced s ->
  let once := onMessage env response s in
  let twice := onMessage env' response once in
  let alone := onMessage env' response s in
  rendered (popovers twice) = rendered (popovers alone)
  /\ tracked (scrollEventListeners twice) = tracked (scrollEventListeners alone)
  /\ tracked (windowScroll twice) = tracked (windowScroll alone)
  /\ listeners twice = listeners once
  /\ listeners once = filter foreign (listeners s) ++ hoverBindings
  /\ isInspecting twice = isInspecting once
  /\ highlighting twice = highlighting once
  /\ (env' = env ->
      rendered (popovers twice) = rendered (popovers once)
      /\ tracked (scrollEventListeners twice)
         = tracked (scrollEventListeners once)
      /\ tracked (windowScroll twice) = tracked (windowScroll once)).
Proof.
  intros Hr Hs once twice alone.
  assert (Hs1 : synced once) by now apply onMessage_start_synced.
  assert (Hs2 : synced twice) by now apply onMessage_start_synced.
  assert (Hs3 : synced alone) by now apply onMessage_start_synced.
  assert (Hwin : tracked (scrollEventListeners twice)
                 = tracked (scrollEventListeners alone) ->
                 tracked (windowScroll twice) = tracked (windowScroll alone)).
  { unfold synced in Hs2, Hs3. now rewrite Hs2, Hs3. }
  assert (Hmain :
    rendered (popovers twice) = rendered (popovers alone)
    /\ tracked (scrollEventListeners twice)
       = tracked (scrollEventListeners alone)
    /\ listeners twice = listeners once
    /\ listeners once = filter foreign (listeners s) ++ hoverBindings
    /\ isInspecting twice = isInspecting once
    /\ highlighting twice = highlighting once).
  { clear Hs1 Hs2 Hs3 Hwin.
    subst once twice alone. rewrite !(onMessage_start _ _ _ Hr) in *.
    destruct (truthy_string (selectedFrame response)) as [selected|] eqn:Hsel.
    - set (once := insertPopovers env response (prepared s)) in *.
      pose proof (insertPopovers_view env response selected (prepared s) Hsel)
        as V1.
      pose proof (insertPopovers_view env' response selected (prepared once) Hsel)
        as V2.
      pose proof (insertPopovers_view env' response selected (prepared s) Hsel)
        as V3.
      fold once in V1. unfold view in V1, V2, V3.
      injection V1 as Hh1 _ _ _ Hl1 Hi1 Hg1.
      injection V2 as _ Hp2 Hc2 _ Hl2 Hi2 Hg2.
      injection V3 as _ Hp3 Hc3 _ _ _ _.
      destruct (extends_fields _ _
                  (inserted_extends env response selected (prepared s)))
        as (_ & Eh1 & _ & _ & _ & El1 & Ei1 & Eg1).
      destruct (extends_fields _ _
                  (inserted_extends env' response selected (prepared once)))
        as (_ & _ & _ & _ & _ & El2 & Ei2 & Eg2).
      destruct (drained_fields selected (prepared s))
        as (_ & Dh1 & _ & _ & Dl1 & _).
      destruct (drained_fields selected (prepared once))
        as (_ & _ & _ & _ & Dl2 & _).
      assert (Hlis : listeners once
                     = filter foreign (listeners s) ++ hoverBindings).
      { rewrite Hl1, El1, Dl1, prepared_eq. reflexivity. }
      assert (Hhov : hoveredFrame (prepared once) = hoveredFrame (prepared s)).
      { rewrite (prepared_eq once). cbn [hoveredFrame].
        now rewrite Hh1, Eh1, Dh1. }
      destruct (inserted_alike env' response selected _ _ Hhov)
        as (_ & Ap & Ac).
      repeat split.
      + now rewrite Hp2, Hp3.
      + now rewrite Hc2, Hc3.
      + rewrite Hl2, El2, Dl2, prepared_eq. cbn [listeners].
        rewrite Hlis at 1. rewrite filter_foreign_idem. now rewrite Hlis.
      + exact Hlis.
      + rewrite Hi2, Ei2, Hi1, Ei1.
        unfold drained. rewrite !removeAllPopovers_eq, !prepared_eq. reflexivity.
      + rewrite Hg2, Eg2, Hg1, Eg1.
        unfold drained. rewrite !removeAllPopovers_eq, !prepared_eq. reflexivity.
    - unfold insertPopovers in *. rewrite Hsel in *.
      destruct (truthy_bool (removeAllFramePopovers response));
        cbn [is_some negb andb] in *;
        rewrite !prepared_eq;
        cbn [Popovers.removeAllPopovers set_popovers popovers listeners
             scrollEventListeners windowScroll isInspecting highlighting
             port isHoveringOverPage bodyHoverStateSent hoveredFrame posted
             scrolledIntoView discovered fresh];
        rewrite ?filter_foreign_idem; now repeat split. }
  destruct Hmain as (Mp & Mc & Ml & Ml1 & Mi & Mg).
  repeat split; try assumption.
  - exact (Hwin Mc).
  - subst env'. exact Mp.
  - subst env'. exact Mc.
  - subst env'. exact (Hwin Mc).
Qed.

Lemma start_inspecting_idempotent_witness :
  let once := onMessage Scenario.belowFold Scenario.start Scenario.connected in
  let twice := onMessage Scenario.afterScroll Scenario.start once in
  let alone :=
    onMessage Scenario.afterScroll Scenario.start Scenario.connected in
  rendered (popovers twice) = rendered (popovers alone)
  /\ tracked (scrollEventListeners twice) = tracked (scrollEventListeners alone)
  /\ tracked (windowScroll twice) = tracked (windowScroll alone)
  /\ listeners twice = listeners once
  /\ listeners once
     = filter foreign (listeners Scenario.connected) ++ hoverBindings
  /\ isInspecting twice = isInspecting once
  /\ highlighting twice = highlighting once
  /\ (Scenario.afterScroll = Scenario.belowFold ->
      rendered (popovers twice) = rendered (popovers once)
      /\ tracked (scrollEventListeners twice)
         = tracked (scrollEventListeners once)
      /\ tracked (windowScroll twice) = tracked (windowScroll once)).
Proof.
  apply (start_inspecting_idempotent Scenario.belowFold Scenario.afterScroll
           Scenario.start Scenario.connected); reflexivity.
Defined.

(** C8 as worded fails when the first processing scrolls the page. On
    the page of [Scenario.belowFold] no frame meets the viewport, the
    tooltip goes to the first match, frame 1, and is scrolled into
    view. The identical command that follows finds the page of
    [Scenario.afterScroll]: frames 1 and 2 now both meet the viewport,
    the tooltip goes to the last of them, frame 2, and the rendered
    popover set is not the one the first processing left. *)
Lemma start_twice_after_scroll_counterexample :
  let once := onMessage Scenario.belowFold Scenario.start Scenario.connected in
  let twice := onMessage Scenario.afterScroll Scenario.start once in
  scrolledIntoView Scenario.connected = []
  /\ scrolledIntoView once = [4]
  /\ rendered (popovers once)
     = [RenderedOverlay 1; RenderedOverlay 2; RenderedTooltip (Some 1) 2 0]
  /\ rendered (popovers twice)
     = [RenderedOverlay 1; RenderedOverlay 2; RenderedTooltip (Some 2) 2 0]
  /\ rendered (popovers twice) <> rendered (popovers once).
Proof.
  vm_compute. repeat split. discriminate.
Qed.

(** *** Registry and window stay in step *)

Lemma abortInspection_synced (s : State) : synced s -> synced (abortInspection s).
Proof. unfold synced. now rewrite abortInspection_eq. Qed.

Lemma blank_render_synced frame response (s : State) :
  synced s ->
  synced (snd (insertTooltip (Some frame) 1 0 response
                 (snd (insertOverlay frame (removeAllPopovers s))))).
Proof.
  unfold synced. intros Hs.
  rewrite insertOverlay_eq, insertTooltip_eq, removeAllPopovers_eq.
  cbn [snd extend windowScroll scrollEventListeners].
  now rewrite Hs, held_self.
Qed.

Lemma handleHoverEvent_stages env event (s : State) :
  handleHoverEvent env event s
  = if marked env event then Returned (set_hoveredFrame None s)
    else
      bind (bodyStage env (negb (String.eqb (tagName event) "IFRAME"))
              (set_isHoveringOverPage true (set_hoveredFrame None s)))
           (fun s =>
              if negb (isInspecting s)
                 || negb (String.eqb (tagName event) "IFRAME")
              then Returned s
              else frameStage env event s).
Proof. reflexivity. Qed.

Lemma bodyStage_synced env nonIframe (s : State) :
  synced s ->
  match bodyStage env nonIframe s with
  | Returned s' => synced s'
  | Thrown s' => synced s'
  end.
Proof.
  intros Hs. unfold bodyStage, postMessage.
  destruct (negb (bodyHoverStateSent s) && isInspecting s && nonIframe
            && is_some (port s)); [|exact Hs].
  destruct (runtime_id env), (postMessage_throws env); exact Hs.
Qed.

Lemma report_synced env url (s : State) :
  synced s ->
  synced (final
    (if negb (is_some (port s)) then Returned s
     else
       match
         (if runtime_id env then
            postMessage env
              (FrameHover (match url with Some o => o | None => "" end)
                          (match url with Some _ => false | None => true end))
              s
          else Returned s)
       with
       | Returned s => Returned s
       | Thrown s => Returned (abortInspection s)
       end)).
Proof.
  intros Hs. destruct (negb (is_some (port s))); [exact Hs|].
  unfold postMessage.
  destruct (runtime_id env), (postMessage_throws env); cbn [final];
    first [exact Hs | now apply abortInspection_synced].
Qed.

Lemma frameStage_synced env event (s : State) :
  synced s -> synced (final (frameStage env event s)).
Proof.
  intros Hs. unfold frameStage. cbv zeta.
  assert (H0 : synced (set_hoveredFrame (Some (target event))
                         (set_bodyHoverStateSent false s))) by exact Hs.
  match goal with
  | |- context [truthy_string ?x] => destruct (truthy_string x) as [a|]
  end.
  - destruct (url_origin env a) as [o|]; [|exact H0].
    exact (report_synced env (Some o) _ H0).
  - exact (report_synced env None _
             (blank_render_synced (target event) (mkResponse true None None)
                _ H0)).
Qed.

Lemma handleHoverEvent_synced env event (s : State) :
  synced s -> synced (final (handleHoverEvent env event s)).
Proof.
  intros Hs. rewrite handleHoverEvent_stages.
  destruct (marked env event); [exact Hs|].
  pose proof (bodyStage_synced env (negb (String.eqb (tagName event) "IFRAME"))
                (set_isHoveringOverPage true (set_hoveredFrame None s)) Hs) as Hb.
  destruct (bodyStage env (negb (String.eqb (tagName event) "IFRAME"))
              (set_isHoveringOverPage true (set_hoveredFrame None s)))
    as [s1|s1]; cbn [bind final]; [|exact Hb].
  destruct (negb (isInspecting s1) || negb (String.eqb (tagName event) "IFRAME"));
    [exact Hb | now apply frameStage_synced].
Qed.

(** In every state a session can reach, the scroll listeners of the
    window are the callbacks of the registry. *)
Lemma session_synced (events : list Event) : synced (session events).
Proof.
  unfold session.
  assert (H : forall s, synced s -> synced (fold_left deliver events s)).
  { induction events as [|e events IH]; intros s Hs; [exact Hs|].
    apply IH. destruct e as [env name p|env response| |env event|env type];
      cbn [deliver].
    - unfold onConnect. now destruct (String.prefix _ _).
    - destruct (isInspecting_r response) eqn:Hr.
      + now apply onMessage_start_synced.
      + unfold onMessage. rewrite Hr. now apply abortInspection_synced.
    - now apply abortInspection_synced.
    - now apply handleHoverEvent_synced.
    - unfold handleMouseMove.
      repeat match goal with
             | |- context [if ?b then _ else _] => destruct b
             end; exact Hs. }
  apply H. reflexivity.
Qed.

(** After a replacement insertion every popover has its scroll callback
    and the registry holds nothing else. *)
Lemma replacement_tracks_each_popover env response selected (s : State) :
  truthy_string (selectedFrame response) = Some selected ->
  List.length (scrollEventListeners (insertPopovers env response s))
  = List.length (popovers (insertPopovers env response s)).
Proof.
  intros Hsel.
  pose proof (insertPopovers_view env response selected s Hsel) as Hv.
  unfold view in Hv. injection Hv as _ Hp Hc _ _ _ _. rewrite Hp, Hc.
  destruct (inserted_extends env response selected s) as (ps & cbs & n & -> & L).
  destruct (drained_fields selected s) as (_ & _ & _ & _ & _ & P & R).
  cbn [extend popovers scrollEventListeners]. now rewrite P, R.
Qed.

End ControllerFacts.

(* ================================================================= *)
(** ** Further properties of the tooltip placement *)

Module PlacementMore.

Import Placement.
Local Open Scope Z_scope.
Local Open Scope list_scope.

Lemma add_idem (l : list string) (c : string) :
  TokenList.add (TokenList.add l c) c = TokenList.add l c.
Proof.
  unfold TokenList.add. destruct (TokenList.contains l c) eqn:Hc.
  - now rewrite Hc.
  - unfold TokenList.contains. rewrite existsb_app. simpl.
    rewrite String.eqb_refl. simpl. now rewrite orb_true_r.
Qed.

Lemma remove_idem (l cs : list string) :
  TokenList.remove (TokenList.remove l cs) cs = TokenList.remove l cs.
Proof.
  unfold TokenList.remove. induction l as [|a l IH]; simpl; [reflexivity|].
  destruct (TokenList.contains cs a) eqn:Ha; simpl; [exact IH|].
  now rewrite Ha, IH.
Qed.

Lemma add_after_remove (l cs : list string) (c : string) :
  TokenList.contains cs c = true ->
  TokenList.add (TokenList.remove l cs) c = TokenList.remove l cs ++ [c].
Proof.
  intros Hc. unfold TokenList.add.
  now rewrite (PlacementFacts.contains_remove l cs c Hc).
Qed.

Lemma remove_add_remove (l cs : list string) (c : string) :
  TokenList.contains cs c = true ->
  TokenList.remove (TokenList.add (TokenList.remove l cs) c) cs
  = TokenList.remove l cs.
Proof.
  intros Hc. rewrite (add_after_remove l cs c Hc).
  unfold TokenList.remove at 1. rewrite filter_app. simpl. rewrite Hc. simpl.
  rewrite app_nil_r. apply remove_idem.
Qed.

(** Unfolding the writes to the tooltip, down to its fields. *)
Ltac expose :=
  cbv [set_top set_left set_right set_maxWidth classList_add child_add
       child_remove style classList firstElementChild offsetWidth offsetHeight
       style_maxWidth style_top style_left style_right option_map after
       frameRect reads getBoundingClientRect frame_offsetHeight
       rect_x rect_y rect_width] in *.

(** X1: a second call with the same window, frame and flags, on the
    tooltip the first call left (its two layout read-outs unchanged),
    changes nothing: the scroll callback can re-run the placement any
    number of times. *)
Theorem setTooltipPosition_idempotent (w : Window) (tooltip : option Tooltip)
    (frame : option FrameEl) (isHiddenFrame : bool)
    (selectedFrame : option string) :
  setTooltipPosition w
    (after (setTooltipPosition w tooltip frame isHiddenFrame selectedFrame))
    frame isHiddenFrame selectedFrame
  = setTooltipPosition w tooltip frame isHiddenFrame selectedFrame.
Proof.
  destruct tooltip as [[[mw tp lf rt] cl ch ow oh]|]; [|reflexivity].
  unfold setTooltipPosition, pinTopRight, placeAtFrame.
  destruct frame as [[[fx fy fw] fh]|];
    [destruct isHiddenFrame;
     [|destruct (same_origin w selectedFrame)]|];
    expose;
    repeat match goal with
           | |- context [if ?b then _ else _] => destruct b eqn:?
           end;
    expose; try congruence; rewrite ?add_idem;
    destruct ch as [l|]; expose;
    rewrite ?add_idem, ?remove_add_remove by reflexivity;
    unfold accepted_maxWidth;
    repeat match goal with
           | |- context [if ?b then _ else _] => destruct b eqn:?
           end;
    try congruence; reflexivity.
Qed.

Lemma activeNotches_single (t : Tooltip) (l : list string) (c : string) :
  In c notch_classes ->
  firstElementChild t = Some (TokenList.remove l notch_classes ++ [c]) ->
  activeNotches t = 1%nat.
Proof.
  intros Hc Hl. unfold activeNotches. rewrite Hl.
  assert (Hin : TokenList.contains notch_classes c = true).
  { destruct Hc as [<-|[<-|[<-|[<-|[]]]]]; reflexivity. }
  rewrite <- (add_after_remove l notch_classes c Hin). simpl.
  rewrite !PlacementFacts.contains_add.
  rewrite !PlacementFacts.contains_remove by reflexivity. simpl.
  destruct Hc as [<-|[<-|[<-|[<-|[]]]]]; reflexivity.
Qed.

(** X2: with room above the frame (the frame's top edge is at least
    one pixel below the tooltip's height) and a frame that is neither
    hidden nor of the document's own origin, the tooltip is put right
    above the frame: its top is the frame's top edge minus its own
    height, in document coordinates, and its child carries exactly one
    notch class, a bottom one: the right one when the tooltip would
    pass the right edge of the viewport and fits to the left of the
    frame, the left one otherwise. The tooltip's own classes stay. *)
Theorem placed_above_frame (w : Window) (t : Tooltip) (f : FrameEl)
    (selectedFrame : option string) (l : list string) :
  firstElementChild t = Some l ->
  same_origin w selectedFrame = false ->
  1 <= rect_y (getBoundingClientRect f) - offsetHeight t ->
  let frameX := rect_x (getBoundingClientRect f) in
  let c := if (innerWidth w <? frameX + offsetWidth t)
              && (0 <? frameX - offsetWidth t)
           then bottom_right_notch else bottom_left_notch in
  exists t',
    after (setTooltipPosition w (Some t) (Some f) false selectedFrame) = Some t'
    /\ style_top (style t')
       = css_px (rect_y (getBoundingClientRect f) - offsetHeight t + scrollY w)
    /\ firstElementChild t' = Some (TokenList.remove l notch_classes ++ [c])
    /\ activeNotches t' = 1%nat
    /\ classList t' = classList t.
Proof.
  intros Hl Hso Hroom frameX c. subst frameX c.
  destruct t as [[mw tp lf rt] cl ch ow oh], f as [[fx fy fw] fh].
  expose. subst ch.
  unfold setTooltipPosition, placeAtFrame. rewrite Hso. expose.
  assert (Ha : (oh <? fy) && (1 <=? fy - oh) = true).
  { apply andb_true_iff. split; [apply Z.ltb_lt | apply Z.leb_le]; lia. }
  rewrite Ha.
  repeat match goal with
         | |- context [if ?b then _ else _] => destruct b
         end;
    expose; rewrite add_after_remove by reflexivity;
    eexists;
    (split; [reflexivity|]); (split; [reflexivity|]);
    (split; [reflexivity|]);
    (split; [|reflexivity]);
    (eapply (activeNotches_single _ l); [|reflexivity]); simpl; tauto.
Qed.

Lemma placed_above_frame_witness :
  exists t',
    after (setTooltipPosition Scenario.scrolledWindow (Some Scenario.smallTooltip)
             (Some Scenario.rightFrame) false Scenario.selected) = Some t'
    /\ style_top (style t') = css_px (300 - 50 + 500)
    /\ firstElementChild t'
       = Some (TokenList.remove [] notch_classes ++ [bottom_right_notch])
    /\ activeNotches t' = 1%nat
    /\ classList t' = classList Scenario.smallTooltip.
Proof.
  apply (placed_above_frame Scenario.scrolledWindow Scenario.smallTooltip
           Scenario.rightFrame Scenario.selected []).
  - reflexivity.
  - reflexivity.
  - simpl. lia.
Defined.

(** X3: without room above but with room below (the frame's top edge
    plus the tooltip's height is inside the viewport), the tooltip is
    put right below the frame: its top is the frame's top edge plus the
    frame's [offsetHeight], in document coordinates, and its child
    carries exactly one notch class, a top one: the right one when the
    frame and the tooltip both pass the right edge of the viewport, the
    left one otherwise. *)
Theorem placed_below_frame (w : Window) (t : Tooltip) (f : FrameEl)
    (selectedFrame : option string) (l : list string) :
  firstElementChild t = Some l ->
  same_origin w selectedFrame = false ->
  rect_y (getBoundingClientRect f) - offsetHeight t < 1 ->
  rect_y (getBoundingClientRect f) + offsetHeight t < innerHeight w ->
  let frameX := rect_x (getBoundingClientRect f) in
  let frameWidth := rect_width (getBoundingClientRect f) in
  let c := if (0 <? frameX + frameWidth - innerWidth w)
              && (innerWidth w <? frameX + offsetWidth t)
           then top_right_notch else top_left_notch in
  exists t',
    after (setTooltipPosition w (Some t) (Some f) false selectedFrame) = Some t'
    /\ style_top (style t')
       = css_px (rect_y (getBoundingClientRect f) + frame_offsetHeight f
                 + scrollY w)
    /\ firstElementChild t' = Some (TokenList.remove l notch_classes ++ [c])
    /\ activeNotches t' = 1%nat
    /\ classList t' = classList t.
Proof.
  intros Hl Hso Hno Hroom frameX frameWidth c. subst frameX frameWidth c.
  destruct t as [[mw tp lf rt] cl ch ow oh], f as [[fx fy fw] fh].
  expose. subst ch.
  unfold setTooltipPosition, placeAtFrame. rewrite Hso. expose.
  assert (Ha : (oh <? fy) && (1 <=? fy - oh) = false).
  { apply andb_false_iff. right. apply Z.leb_gt. lia. }
  assert (Hb : (fy + oh <? innerHeight w) = true) by (apply Z.ltb_lt; lia).
  rewrite Ha, Hb.
  repeat match goal with
         | |- context [if ?b then _ else _] => destruct b
         end;
    expose; rewrite add_after_remove by reflexivity;
    eexists;
    (split; [reflexivity|]); (split; [reflexivity|]);
    (split; [reflexivity|]);
    (split; [|reflexivity]);
    (eapply (activeNotches_single _ l); [|reflexivity]); simpl; tauto.
Qed.

Lemma placed_below_frame_witness :
  exists t',
    after (setTooltipPosition Scenario.scrolledWindow (Some Scenario.smallTooltip)
             (Some (mkFrameEl (mkRect 100 20 300) 150)) false Scenario.selected)
    = Some t'
    /\ style_top (style t') = css_px (20 + 150 + 500)
    /\ firstElementChild t'
       = Some (TokenList.remove [] notch_classes ++ [top_left_notch])
    /\ activeNotches t' = 1%nat
    /\ classList t' = classList Scenario.smallTooltip.
Proof.
  apply (placed_below_frame Scenario.scrolledWindow Scenario.smallTooltip
           (mkFrameEl (mkRect 100 20 300) 150) Scenario.selected []).
  - reflexivity.
  - reflexivity.
  - simpl. lia.
  - simpl. lia.
Defined.

(** X4: the call never takes a class off the tooltip element itself;
    it adds [ps-fixed] exactly in the pinned branches (no frame, hidden
    frame, frame of the document's own origin). A tooltip that was
    pinned once keeps [ps-fixed] when it is later placed at a frame. *)
Theorem tooltip_classes_only_grow (w : Window) (t : Tooltip)
    (frame : option FrameEl) (isHiddenFrame : bool)
    (selectedFrame : option string) :
  let pinned :=
    match frame with
    | None => true
    | Some _ => isHiddenFrame || same_origin w selectedFrame
    end in
  exists t',
    after (setTooltipPosition w (Some t) frame isHiddenFrame selectedFrame)
    = Some t'
    /\ classList t'
       = (if pinned then TokenList.add (classList t) "ps-fixed" else classList t)
    /\ (forall c, TokenList.contains (classList t) c = true ->
                  TokenList.contains (classList t') c = true)
    /\ TokenList.contains (classList t') "ps-fixed"
       = TokenList.contains (classList t) "ps-fixed" || pinned.
Proof.
  intros pinned. subst pinned.
  destruct t as [[mw tp lf rt] cl ch ow oh].
  unfold setTooltipPosition, pinTopRight, placeAtFrame.
  destruct frame as [[[fx fy fw] fh]|];
    [destruct isHiddenFrame;
     [|destruct (same_origin w selectedFrame)]|];
    expose; cbn [orb];
    repeat match goal with
           | |- context [if ?b then _ else _] => destruct b
           end;
    expose; eexists; (split; [reflexivity|]); cbn [orb];
    (split; [reflexivity|]);
    (split;
     [intros c Hc; rewrite ?PlacementFacts.contains_add, ?Hc; reflexivity
     |rewrite ?PlacementFacts.contains_add, ?String.eqb_refl,
        ?orb_true_r, ?orb_false_r; reflexivity]).
Qed.

End PlacementMore.

(* ================================================================= *)
(** ** Further properties of the content script *)

Module ControllerMore.

Import Controller Notions ControllerFacts.
Local Open Scope list_scope.

Local Arguments removeAllPopovers : simpl never.
Local Arguments insertOverlay : simpl never.
Local Arguments insertTooltip : simpl never.
Local Arguments abortInspection : simpl never.
Local Arguments postMessage : simpl never.
Local Arguments removeEventListeners : simpl never.

(** *** What an insertion renders *)

Lemma grows_refl (s : State) : grows s s [] [].
Proof.
  exists [], [], 0. repeat split.
  destruct s; unfold extend; simpl. now rewrite !app_nil_r.
Qed.

Lemma grows_trans (a b c : State) r1 t1 r2 t2 :
  grows a b r1 t1 -> grows b c r2 t2 -> grows a c (r1 ++ r2) (t1 ++ t2).
Proof.
  intros (p1 & c1 & n1 & -> & <- & <-) (p2 & c2 & n2 & -> & <- & <-).
  exists (p1 ++ p2), (c1 ++ c2), (n2 + n1). repeat split.
  - unfold extend; simpl. rewrite !app_assoc. f_equal. lia.
  - unfold rendered. now rewrite map_app.
  - unfold tracked. now rewrite map_app.
Qed.

Lemma grows_extends (s s' : State) rs ts :
  grows s s' rs ts ->
  popovers s = [] -> scrollEventListeners s = [] ->
  rendered (popovers s') = rs /\ tracked (scrollEventListeners s') = ts.
Proof.
  intros (ps & cbs & n & -> & <- & <-) Hp Hc.
  cbn [extend popovers scrollEventListeners]. now rewrite Hp, Hc.
Qed.

Lemma insertOverlay_grows frame (s : State) :
  grows s (snd (insertOverlay frame s))
        [RenderedOverlay frame] [TrackedOverlay frame].
Proof. rewrite insertOverlay_eq. do 3 eexists. now repeat split. Qed.

Lemma insertTooltip_grows frame v h response (s : State) :
  grows s (snd (insertTooltip frame v h response s))
        [RenderedTooltip frame v h]
        [TrackedTooltip frame (selectedFrame response)].
Proof. rewrite insertTooltip_eq. do 3 eexists. now repeat split. Qed.

Lemma overlays_grow (frames : list Frame) :
  forall s,
    grows s (fold_left (fun st frame => snd (insertOverlay frame st)) frames s)
          (map RenderedOverlay frames) (map TrackedOverlay frames).
Proof.
  induction frames as [|a l IH]; intros s; simpl.
  - apply grows_refl.
  - apply (grows_trans _ _ _ [_] [_] _ _ (insertOverlay_grows a s) (IH _)).
Qed.

Lemma visible_overlays_grow env (frames : list Frame) :
  forall s,
    grows s
      (fold_left (fun st frame =>
                    if negb (isFrameHidden env frame)
                    then snd (insertOverlay frame st) else st) frames s)
      (map RenderedOverlay (visibleFrames env frames))
      (map TrackedOverlay (visibleFrames env frames)).
Proof.
  unfold visibleFrames.
  induction frames as [|a l IH]; intros s; simpl.
  - apply grows_refl.
  - destruct (isFrameHidden env a); simpl.
    + apply IH.
    + apply (grows_trans _ _ _ [_] [_] _ _ (insertOverlay_grows a s) (IH _)).
Qed.

Lemma tooltipRound_eq env v h response pe (s : State) i frame :
  tooltipRound env v h response (pe, s, i) frame
  = if negb (isFrameHidden env frame)
    then (mkPopoverElement (Some frame)
            (if Nat.eqb 0 i then Some (fresh s) else firstToolTip pe),
          extend s [Tooltip (fresh s) (Some frame) v h]
            [mkCallback (S (fresh s))
               (RepositionTooltip (Some (fresh s)) (Some frame)
                  (selectedFrame response))] 2,
          S i)
    else (pe, s, S i).
Proof. unfold tooltipRound. now rewrite insertTooltip_eq. Qed.

Lemma tooltipRounds_grow env v h response (frames : list Frame) :
  forall acc,
    grows (snd (fst acc))
      (snd (fst (fold_left (tooltipRound env v h response) frames acc)))
      (map (fun frame => RenderedTooltip (Some frame) v h)
           (visibleFrames env frames))
      (map (fun frame => TrackedTooltip (Some frame) (selectedFrame response))
           (visibleFrames env frames)).
Proof.
  unfold visibleFrames.
  induction frames as [|a l IH]; intros [[pe s] i];
    cbn [fold_left filter map fst snd].
  - apply grows_refl.
  - rewrite tooltipRound_eq.
    destruct (isFrameHidden env a); cbn [negb map].
    + apply IH.
    + refine (grows_trans _ _ _ [_] [_] _ _ _ (IH _)).
      cbn [fst snd]. do 3 eexists. now repeat split.
Qed.

Lemma last_cons {A} (x : A) (l : list A) (d : A) :
  last (x :: l) d = last l x.
Proof.
  revert x d. induction l as [|y l IH]; intros x d; [reflexivity|].
  change (last (x :: y :: l) d) with (last (y :: l) d).
  now rewrite !IH.
Qed.

Lemma fold_last {A} (p : A -> bool) (l : list A) :
  forall init,
    fold_left (fun chosen a => if p a then Some a else chosen) l init
    = last (map Some (filter p l)) init.
Proof.
  induction l as [|a l IH]; intros init; cbn [fold_left filter]; [reflexivity|].
  rewrite IH. destruct (p a); [|reflexivity].
  cbn [map]. now rewrite last_cons.
Qed.

Lemma tooltipRounds_frame env v h response (frames : list Frame) :
  forall pe s i,
    frameWithTooltip
      (fst (fst (fold_left (tooltipRound env v h response) frames (pe, s, i))))
    = last (map Some (visibleFrames env frames)) (frameWithTooltip pe).
Proof.
  unfold visibleFrames.
  induction frames as [|a l IH]; intros pe s i; cbn [fold_left filter];
    [reflexivity|].
  rewrite tooltipRound_eq.
  destruct (isFrameHidden env a); cbn [negb map]; rewrite IH; [reflexivity|].
  now rewrite last_cons.
Qed.

Lemma tooltipRounds_first_later env v h response (frames : list Frame) :
  forall pe s i,
    i <> 0 ->
    firstToolTip
      (fst (fst (fold_left (tooltipRound env v h response) frames (pe, s, i))))
    = firstToolTip pe.
Proof.
  induction frames as [|a l IH]; intros pe s i Hi; cbn [fold_left];
    [reflexivity|].
  rewrite tooltipRound_eq.
  destruct (isFrameHidden env a); cbn [negb]; rewrite IH by lia;
    [reflexivity|].
  cbn [firstToolTip]. destruct i; [contradiction|reflexivity].
Qed.

(** The record of the mixed case: the primary tooltip is the one of
    the first match when that match is not hidden; the frame recorded is
    the last match that is not hidden. *)
Lemma tooltipRounds_record env v h response frame rest (s : State) :
  let pe := fst (fst (fold_left (tooltipRound env v h response) (frame :: rest)
                         (mkPopoverElement None None, s, 0))) in
  firstToolTip pe = (if isFrameHidden env frame then None else Some (fresh s))
  /\ frameWithTooltip pe
     = last (map Some (visibleFrames env (frame :: rest))) None.
Proof.
  split; [|apply tooltipRounds_frame].
  cbn [fold_left]. rewrite tooltipRound_eq.
  destruct (isFrameHidden env frame); cbn [negb];
    now rewrite tooltipRounds_first_later by lia.
Qed.

(** Counting with [getFrameCount]. *)
Lemma filter_partition_length {A} (p : A -> bool) (l : list A) :
  List.length (filter p l) + List.length (filter (fun a => negb (p a)) l)
  = List.length l.
Proof.
  induction l as [|a l IH]; simpl; [reflexivity|].
  destruct (p a); simpl; lia.
Qed.

Lemma visible_count env (frames : list Frame) :
  Utils.numberOfVisibleFrames (Utils.getFrameCount env frames)
  = List.length (visibleFrames env frames).
Proof.
  unfold Utils.getFrameCount, visibleFrames. cbn [Utils.numberOfVisibleFrames].
  pose proof (filter_partition_length (isFrameHidden env) frames). lia.
Qed.

Lemma hidden_count env (frames : list Frame) :
  Utils.numberOfHiddenFrames (Utils.getFrameCount env frames)
  = List.length frames - List.length (visibleFrames env frames).
Proof.
  unfold Utils.getFrameCount, visibleFrames. cbn [Utils.numberOfHiddenFrames].
  pose proof (filter_partition_length (isFrameHidden env) frames). lia.
Qed.

Lemma visibleFrames_all env (frames : list Frame) :
  (forall f, In f frames -> isFrameHidden env f = false) ->
  visibleFrames env frames = frames.
Proof.
  intros H. unfold visibleFrames. induction frames as [|a l IH]; simpl;
    [reflexivity|].
  rewrite (H a) by now left. simpl. f_equal. apply IH.
  intros f Hf. apply H. now right.
Qed.

Lemma visibleFrames_none env (frames : list Frame) :
  (forall f, In f frames -> isFrameHidden env f = true) ->
  visibleFrames env frames = [].
Proof.
  intros H. unfold visibleFrames. induction frames as [|a l IH]; simpl;
    [reflexivity|].
  rewrite (H a) by now left. simpl. apply IH.
  intros f Hf. apply H. now right.
Qed.

Lemma visibleFrames_length env (frames : list Frame) :
  List.length (visibleFrames env frames) <= List.length frames.
Proof. apply filter_length_le. Qed.

Lemma visibleFrames_In env (frames : list Frame) f :
  In f frames -> isFrameHidden env f = false ->
  visibleFrames env frames <> [].
Proof.
  intros Hin Hf Hnil.
  assert (In f (visibleFrames env frames)).
  { apply filter_In. split; [exact Hin|]. now rewrite Hf. }
  rewrite Hnil in H. contradiction.
Qed.

Lemma visibleFrames_short env (frames : list Frame) f :
  In f frames -> isFrameHidden env f = true ->
  List.length (visibleFrames env frames) < List.length frames.
Proof.
  intros Hin Hf. unfold visibleFrames.
  induction frames as [|a l IH]; [contradiction|].
  simpl. destruct Hin as [->|Hin].
  - rewrite Hf. simpl.
    pose proof (filter_length_le (fun frame => negb (isFrameHidden env frame)) l).
    lia.
  - specialize (IH Hin). destruct (isFrameHidden env a); simpl; lia.
Qed.

(** From the handler to [insertPopovers]. *)
Lemma insertPopovers_rendered env response selected (s : State)
    frame rest rs ts :
  truthy_string (selectedFrame response) = Some selected ->
  findSelectedFrameElements env selected = frame :: rest ->
  grows (drained selected s) (snd (handlerCall env response selected s)) rs ts ->
  rendered (popovers (insertPopovers env response s)) = rs
  /\ tracked (scrollEventListeners (insertPopovers env response s)) = ts.
Proof.
  intros Hsel Hfound Hg.
  pose proof (insertPopovers_view env response selected s Hsel) as Hv.
  unfold view in Hv. injection Hv as _ Hp Hc _ _ _ _. rewrite Hp, Hc.
  unfold inserted. rewrite Hfound.
  destruct (drained_fields selected s) as (_ & _ & _ & _ & _ & P & R).
  now apply (grows_extends _ _ _ _ Hg).
Qed.

Lemma grows_hoveredFrame (s s' : State) rs ts :
  grows s s' rs ts -> hoveredFrame s' = hoveredFrame s.
Proof. now intros (ps & cbs & n & -> & _). Qed.

Lemma handler_all_visible env frames v response (s : State) :
  let anchor := anchorChoice env (hoveredFrame s) frames in
  grows s (snd (insertPopoversConditionHandler env frames v 0 response s))
    (map RenderedOverlay frames ++ [RenderedTooltip anchor v 0])
    (map TrackedOverlay frames
     ++ [TrackedTooltip anchor (selectedFrame response)])
  /\ frameWithTooltip
       (fst (insertPopoversConditionHandler env frames v 0 response s))
     = anchor
  /\ is_some (firstToolTip
                (fst (insertPopoversConditionHandler env frames v 0 response s)))
     = true.
Proof.
  intros anchor. subst anchor.
  unfold insertPopoversConditionHandler. cbn [Nat.eqb].
  rewrite insertTooltip_eq. cbv zeta. cbn [fst snd].
  pose proof (overlays_grow frames s) as Hg.
  rewrite (grows_hoveredFrame _ _ _ _ Hg).
  assert (Ha :
    (if is_some (hoveredFrame s)
     then match hoveredFrame s with
          | Some h => Some h
          | None => nth_error frames 0
          end
     else
       fold_left
         (fun chosen frame =>
            if isElementVisibleInViewport env (Some frame) true
            then Some frame else chosen) frames
         match hoveredFrame s with
         | Some h => Some h
         | None => nth_error frames 0
         end)
    = anchorChoice env (hoveredFrame s) frames).
  { unfold anchorChoice. destruct (hoveredFrame s); cbn [is_some];
      [reflexivity|].
    apply (fold_last (fun frame => isElementVisibleInViewport env (Some frame) true)). }
  rewrite Ha. split; [|now split].
  refine (grows_trans _ _ _ _ _ [_] [_] Hg _).
  do 3 eexists. now repeat split.
Qed.

(** X5: when the selected origin matches no frame, the insertion
    leaves one tooltip that is attached to no frame and shows the counts
    0 and 0, with its scroll callback and nothing else; whatever was
    rendered before is gone and nothing is scrolled. *)
Theorem no_match_renders_lone_tooltip env response selected (s : State) :
  truthy_string (selectedFrame response) = Some selected ->
  findSelectedFrameElements env selected = [] ->
  let s' := insertPopovers env response s in
  rendered (popovers s') = [RenderedTooltip None 0 0]
  /\ tracked (scrollEventListeners s')
     = [TrackedTooltip None (selectedFrame response)]
  /\ scrolledIntoView s' = scrolledIntoView s.
Proof.
  intros Hsel Hfound s'. subst s'.
  split; [|split].
  - unfold insertPopovers. rewrite Hsel, Hfound. cbn [is_some negb].
    rewrite andb_false_r.
    cbn [Utils.getFrameCount Utils.numberOfFrames List.length Nat.eqb].
    now rewrite removeAllPopovers_eq, insertTooltip_eq.
  - unfold insertPopovers. rewrite Hsel, Hfound. cbn [is_some negb].
    rewrite andb_false_r.
    cbn [Utils.getFrameCount Utils.numberOfFrames List.length Nat.eqb].
    now rewrite removeAllPopovers_eq, insertTooltip_eq.
  - apply insertPopovers_no_scroll. right. now exists selected.
Qed.

Lemma no_match_renders_lone_tooltip_witness :
  let s' := insertPopovers (Scenario.page false)
              (mkResponse true (Some "https://b.test") None)
              Scenario.inspecting in
  rendered (popovers s') = [RenderedTooltip None 0 0]
  /\ tracked (scrollEventListeners s')
     = [TrackedTooltip None (Some "https://b.test")]
  /\ scrolledIntoView s' = scrolledIntoView Scenario.inspecting.
Proof.
  apply (no_match_renders_lone_tooltip (Scenario.page false)
           (mkResponse true (Some "https://b.test") None) "https://b.test"
           Scenario.inspecting); reflexivity.
Defined.

(** X6: when no matching frame is hidden, the insertion renders one
    overlay per match, in document order, followed by exactly one
    tooltip. The tooltip is attached to the hovered frame when there is
    one (whether or not it is among the matches), else to the last match
    that [isElementVisibleInViewport(frame, true)] accepts, else to the
    first match; it shows the number of matches and 0. A scroll callback
    is registered for each of them, in the same order. *)
Theorem all_visible_rendering env response selected (s : State) frame rest :
  truthy_string (selectedFrame response) = Some selected ->
  findSelectedFrameElements env selected = frame :: rest ->
  (forall f, In f (frame :: rest) -> isFrameHidden env f = false) ->
  let frames := frame :: rest in
  let anchor := anchorChoice env (hoveredFrame s) frames in
  let s' := insertPopovers env response s in
  rendered (popovers s')
  = map RenderedOverlay frames
    ++ [RenderedTooltip anchor (List.length frames) 0]
  /\ tracked (scrollEventListeners s')
     = map TrackedOverlay frames
       ++ [TrackedTooltip anchor (selectedFrame response)].
Proof.
  intros Hsel Hfound Hvis frames anchor s'. subst frames anchor s'.
  apply (insertPopovers_rendered env response selected s frame rest _ _
           Hsel Hfound).
  unfold handlerCall. rewrite Hfound.
  rewrite visible_count, hidden_count, (visibleFrames_all _ _ Hvis).
  rewrite Nat.sub_diag.
  destruct (drained_fields selected s) as (_ & Hh & _).
  rewrite <- Hh.
  apply handler_all_visible.
Qed.

Lemma all_visible_rendering_witness :
  let env := Scenario.page false in
  let response := mkResponse true (Some "https://a.test") None in
  let env' :=
    mkEnv (TOOLTIP_CLASS env) (WEBPAGE_PORT_NAME env)
      (findSelectedFrameElements env) (isElementVisibleInViewport env)
      (fun _ => false) (clientWidth env) (document_hidden env)
      (url_origin env) (runtime_id env) (postMessage_throws env) in
  let s' := insertPopovers env' response Scenario.connected in
  rendered (popovers s')
  = map RenderedOverlay [1; 2; 3] ++ [RenderedTooltip (Some 3) 3 0]
  /\ tracked (scrollEventListeners s')
     = map TrackedOverlay [1; 2; 3]
       ++ [TrackedTooltip (Some 3) (Some "https://a.test")].
Proof.
  intros env response env'.
  apply (all_visible_rendering env' response "https://a.test"
           Scenario.connected 1 [2; 3]); reflexivity.
Defined.

Lemma handler_all_hidden env frame rest h response (s : State) :
  h <> 0 ->
  grows s
    (snd (insertPopoversConditionHandler env (frame :: rest) 0 h response s))
    [RenderedOverlay frame; RenderedTooltip (Some frame) 0 h]
    [TrackedOverlay frame; TrackedTooltip (Some frame) (selectedFrame response)]
  /\ fst (insertPopoversConditionHandler env (frame :: rest) 0 h response s)
     = mkPopoverElement None None.
Proof.
  intros Hh. unfold insertPopoversConditionHandler.
  destruct h as [|h]; [contradiction|]. cbn [Nat.eqb]. cbv zeta.
  split; [|reflexivity]. cbn [snd].
  exact (grows_trans _ _ _ [_] [_] [_] [_]
           (insertOverlay_grows frame s) (insertTooltip_grows _ _ _ _ _)).
Qed.

(** X7: when every matching frame is hidden, the insertion renders
    one overlay and one tooltip, both for the first match, whatever the
    number of matches; the tooltip shows 0 visible frames and the number
    of matches as hidden. No primary tooltip is recorded, so nothing is
    scrolled. *)
Theorem all_hidden_rendering env response selected (s : State) frame rest :
  truthy_string (selectedFrame response) = Some selected ->
  findSelectedFrameElements env selected = frame :: rest ->
  (forall f, In f (frame :: rest) -> isFrameHidden env f = true) ->
  let s' := insertPopovers env response s in
  rendered (popovers s')
  = [RenderedOverlay frame;
     RenderedTooltip (Some frame) 0 (List.length (frame :: rest))]
  /\ tracked (scrollEventListeners s')
     = [TrackedOverlay frame;
        TrackedTooltip (Some frame) (selectedFrame response)]
  /\ scrolledIntoView s' = scrolledIntoView s.
Proof.
  intros Hsel Hfound Hhid s'. subst s'.
  assert (Hcall : handlerCall env response selected s
                  = insertPopoversConditionHandler env (frame :: rest) 0
                      (List.length (frame :: rest)) response
                      (drained selected s)).
  { unfold handlerCall. rewrite Hfound.
    rewrite visible_count, hidden_count, (visibleFrames_none _ _ Hhid).
    cbn [List.length]. now rewrite Nat.sub_0_r. }
  destruct (handler_all_hidden env frame rest (List.length (frame :: rest))
              response (drained selected s)) as [Hg Hpe];
    [discriminate|].
  rewrite <- Hcall in Hg, Hpe.
  destruct (insertPopovers_rendered env response selected s frame rest _ _
              Hsel Hfound Hg) as [Hr Ht].
  split; [exact Hr|]. split; [exact Ht|].
  destruct (autoScroll_selected env response s selected frame rest Hsel Hfound)
    as [_ [Hsame | (tip & Hfirst & _)]]; [exact Hsame|].
  rewrite Hpe in Hfirst. discriminate.
Qed.

Lemma all_hidden_rendering_witness :
  let env := Scenario.page false in
  let env' :=
    mkEnv (TOOLTIP_CLASS env) (WEBPAGE_PORT_NAME env)
      (findSelectedFrameElements env) (fun _ _ => false)
      (fun _ => true) (fun _ => 0%Z) (document_hidden env)
      (url_origin env) (runtime_id env) (postMessage_throws env) in
  let s' := insertPopovers env' Scenario.start Scenario.connected in
  rendered (popovers s')
  = [RenderedOverlay 1; RenderedTooltip (Some 1) 0 3]
  /\ tracked (scrollEventListeners s')
     = [TrackedOverlay 1; TrackedTooltip (Some 1) (Some "https://a.test")]
  /\ scrolledIntoView s' = scrolledIntoView Scenario.connected.
Proof.
  intros env env'.
  apply (all_hidden_rendering env' Scenario.start "https://a.test"
           Scenario.connected 1 [2; 3]); reflexivity.
Defined.

Lemma handler_mixed env frames v h response (s : State) :
  h <> 0 -> v <> 0 ->
  grows s (snd (insertPopoversConditionHandler env frames v h response s))
    (map RenderedOverlay (visibleFrames env frames)
     ++ map (fun frame => RenderedTooltip (Some frame) v h)
            (visibleFrames env frames))
    (map TrackedOverlay (visibleFrames env frames)
     ++ map (fun frame => TrackedTooltip (Some frame) (selectedFrame response))
            (visibleFrames env frames))
  /\ fst (insertPopoversConditionHandler env frames v h response s)
     = fst (fst (fold_left (tooltipRound env v h response) frames
                   (mkPopoverElement None None,
                    fold_left
                      (fun st frame =>
                         if negb (isFrameHidden env frame)
                         then snd (insertOverlay frame st) else st) frames s,
                    0))).
Proof.
  intros Hh Hv. unfold insertPopoversConditionHandler.
  destruct h as [|h]; [contradiction|].
  destruct v as [|v]; [contradiction|]. cbn [Nat.eqb].
  pose proof (visible_overlays_grow env frames s) as Ho.
  set (so := fold_left
               (fun st frame =>
                  if negb (isFrameHidden env frame)
                  then snd (insertOverlay frame st) else st) frames s) in *.
  pose proof (tooltipRounds_grow env (S v) (S h) response frames
                (mkPopoverElement None None, so, 0)) as Ht.
  destruct (fold_left (tooltipRound env (S v) (S h) response) frames
              (mkPopoverElement None None, so, 0)) as [[pe s1] i].
  cbn [fst snd] in *. split; [|reflexivity].
  exact (grows_trans _ _ _ _ _ _ _ Ho Ht).
Qed.

(** X8: when some matching frames are hidden and some are not, the
    insertion renders one overlay per match that is not hidden, in
    document order, and then one tooltip per match that is not hidden,
    in the same order; every tooltip shows the same two counts. A scroll
    callback is registered for each of them. *)
Theorem mixed_rendering env response selected (s : State) frames
    hiddenOne visibleOne :
  truthy_string (selectedFrame response) = Some selected ->
  findSelectedFrameElements env selected = frames ->
  In hiddenOne frames -> isFrameHidden env hiddenOne = true ->
  In visibleOne frames -> isFrameHidden env visibleOne = false ->
  let shown := visibleFrames env frames in
  let v := List.length shown in
  let h := List.length frames - v in
  let s' := insertPopovers env response s in
  rendered (popovers s')
  = map RenderedOverlay shown
    ++ map (fun frame => RenderedTooltip (Some frame) v h) shown
  /\ tracked (scrollEventListeners s')
     = map TrackedOverlay shown
       ++ map (fun frame => TrackedTooltip (Some frame) (selectedFrame response))
              shown.
Proof.
  intros Hsel Hfound Hin1 Hhid Hin2 Hvis shown v h s'. subst shown v h s'.
  destruct frames as [|frame rest]; [contradiction|].
  apply (insertPopovers_rendered env response selected s frame rest _ _
           Hsel Hfound).
  unfold handlerCall. rewrite Hfound.
  rewrite visible_count, hidden_count.
  apply handler_mixed.
  - pose proof (visibleFrames_short env _ _ Hin1 Hhid). lia.
  - pose proof (visibleFrames_In env _ _ Hin2 Hvis) as Hne.
    destruct (visibleFrames env (frame :: rest)); [contradiction|discriminate].
Qed.

Lemma mixed_rendering_witness :
  let s' := insertPopovers (Scenario.page false) Scenario.start
              Scenario.connected in
  rendered (popovers s')
  = map RenderedOverlay [1; 3]
    ++ map (fun frame => RenderedTooltip (Some frame) 2 1) [1; 3]
  /\ tracked (scrollEventListeners s')
     = map TrackedOverlay [1; 3]
       ++ map (fun frame => TrackedTooltip (Some frame) (Some "https://a.test"))
              [1; 3].
Proof.
  apply (mixed_rendering (Scenario.page false) Scenario.start "https://a.test"
           Scenario.connected [1; 2; 3] 2 1);
    first [reflexivity | simpl; tauto].
Defined.

(** X9: for a selected origin with at least one match, a primary
    tooltip is recorded exactly when the first match is not hidden;
    hidden matches further down do not matter, and a hidden first match
    rules the automatic scroll out. *)
Theorem primary_tooltip_iff_first_visible env response selected (s : State)
    frame rest :
  findSelectedFrameElements env selected = frame :: rest ->
  is_some (firstToolTip (fst (handlerCall env response selected s)))
  = negb (isFrameHidden env frame).
Proof.
  intros Hfound. unfold handlerCall. rewrite Hfound.
  rewrite visible_count, hidden_count.
  destruct (isFrameHidden env frame) eqn:Hf; cbn [negb].
  - pose proof (visibleFrames_short env (frame :: rest) frame
                  (or_introl eq_refl) Hf) as Hshort.
    destruct (visibleFrames env (frame :: rest)) as [|x xs] eqn:Hv.
    + change (List.length (@nil Frame)) with 0. rewrite Nat.sub_0_r.
      destruct (handler_all_hidden env frame rest (List.length (frame :: rest))
                  response (drained selected s)) as [_ ->];
        [discriminate | reflexivity].
    + destruct (handler_mixed env (frame :: rest) (List.length (x :: xs))
                  (List.length (frame :: rest) - List.length (x :: xs))
                  response (drained selected s)) as [_ ->];
        [lia | discriminate |].
      destruct (tooltipRounds_record env (List.length (x :: xs))
                  (List.length (frame :: rest) - List.length (x :: xs))
                  response frame rest
                  (fold_left
                     (fun st f =>
                        if negb (isFrameHidden env f)
                        then snd (insertOverlay f st) else st)
                     (frame :: rest) (drained selected s))) as [-> _].
      now rewrite Hf.
  - destruct (Nat.eq_dec (List.length (frame :: rest)
                          - List.length (visibleFrames env (frame :: rest))) 0)
      as [Hz|Hnz].
    + rewrite Hz. now destruct (handler_all_visible env (frame :: rest)
                  (List.length (visibleFrames env (frame :: rest)))
                  response (drained selected s)) as (_ & _ & ->).
    + assert (Hne : visibleFrames env (frame :: rest) <> [])
        by (apply (visibleFrames_In env _ frame); [now left | exact Hf]).
      destruct (handler_mixed env (frame :: rest)
                  (List.length (visibleFrames env (frame :: rest)))
                  (List.length (frame :: rest)
                   - List.length (visibleFrames env (frame :: rest)))
                  response (drained selected s)) as [_ ->].
      * exact Hnz.
      * destruct (visibleFrames env (frame :: rest));
          [contradiction | discriminate].
      * destruct (tooltipRounds_record
                    env (List.length (visibleFrames env (frame :: rest)))
                    (List.length (frame :: rest)
                     - List.length (visibleFrames env (frame :: rest)))
                    response frame rest
                    (fold_left
                       (fun st f =>
                          if negb (isFrameHidden env f)
                          then snd (insertOverlay f st) else st)
                       (frame :: rest) (drained selected s))) as [-> _].
        now rewrite Hf.
Qed.

Lemma primary_tooltip_iff_first_visible_witness :
  is_some (firstToolTip
             (fst (handlerCall (Scenario.page false) Scenario.start
                     "https://a.test" Scenario.connected)))
  = negb (isFrameHidden (Scenario.page false) 1).
Proof.
  apply (primary_tooltip_iff_first_visible (Scenario.page false)
           Scenario.start "https://a.test" Scenario.connected 1 [2; 3]).
  reflexivity.
Defined.

(** *** Draining *)

(** X10: [this.removeAllPopovers()] empties the registry and the
    popover set, and takes off the window exactly the scroll listeners
    that were registered: a listener stays on the window if and only if
    it was there and is not one of the registry's function objects. *)
Theorem removeAllPopovers_drains (s : State) :
  scrollEventListeners (removeAllPopovers s) = []
  /\ popovers (removeAllPopovers s) = []
  /\ (forall c,
        In c (windowScroll (removeAllPopovers s))
        <-> In c (windowScroll s) /\ held (scrollEventListeners s) c = false)
  /\ (synced s -> windowScroll (removeAllPopovers s) = []).
Proof.
  rewrite removeAllPopovers_eq.
  cbn [scrollEventListeners popovers windowScroll].
  split; [reflexivity|]. split; [reflexivity|]. split.
  - intros c. rewrite filter_In, negb_true_iff. tauto.
  - unfold synced. intros ->. apply held_self.
Qed.

(** X11: after an insertion for a selected origin, the registry holds
    one scroll callback per rendered popover and nothing else, and, from
    a state where window and registry agree, the window's scroll
    listeners are again exactly the registry. *)
Theorem replacement_registers_one_callback_per_popover env response selected
    (s : State) :
  truthy_string (selectedFrame response) = Some selected ->
  synced s ->
  let s' := insertPopovers env response s in
  List.length (scrollEventListeners s') = List.length (popovers s')
  /\ windowScroll s' = scrollEventListeners s'.
Proof.
  intros Hsel Hs s'. subst s'. split.
  - now apply (replacement_tracks_each_popover env response selected).
  - pose proof (insertPopovers_view env response selected s Hsel) as Hv.
    unfold view in Hv. injection Hv as _ _ Hreg Hwin _ _ _.
    rewrite Hwin, Hreg.
    apply (extends_synced (drained selected s));
      [now apply drained_synced | apply inserted_extends].
Qed.

Lemma replacement_registers_one_callback_per_popover_witness :
  let s' := insertPopovers (Scenario.page false) Scenario.start
              Scenario.inspecting in
  List.length (scrollEventListeners s') = List.length (popovers s')
  /\ windowScroll s' = scrollEventListeners s'.
Proof.
  apply (replacement_registers_one_callback_per_popover (Scenario.page false)
           Scenario.start "https://a.test" Scenario.inspecting).
  - reflexivity.
  - vm_compute. reflexivity.
Defined.

(** *** Hover events *)

Lemma bodyStage_skipped env nonIframe (s : State) :
  isInspecting s = false \/ port s = None \/ nonIframe = false
  \/ bodyHoverStateSent s = true ->
  bodyStage env nonIframe s = Returned s.
Proof.
  intros H. unfold bodyStage.
  assert (Hc : negb (bodyHoverStateSent s) && isInspecting s && nonIframe
               && is_some (port s) = false).
  { destruct H as [-> | [-> | [-> | ->]]]; cbn;
      rewrite ?andb_false_r; reflexivity. }
  now rewrite Hc.
Qed.

Lemma bodyStage_posted env nonIframe (s : State) :
  exists msgs,
    posted (final (bodyStage env nonIframe s)) = posted s ++ msgs
    /\ List.length msgs <= 1.
Proof.
  unfold bodyStage, postMessage.
  destruct (negb (bodyHoverStateSent s) && isInspecting s && nonIframe
            && is_some (port s));
    [destruct (runtime_id env), (postMessage_throws env)|];
    cbn [bind final posted set_posted set_bodyHoverStateSent
         Popovers.removeAllPopovers set_popovers];
    first [ exists [BodyHover]; split; [reflexivity | simpl; lia]
          | exists []; split; [now rewrite app_nil_r | simpl; lia] ].
Qed.

Lemma report_posted env url (s : State) :
  exists msgs,
    posted (final
      (if negb (is_some (port s)) then Returned s
       else
         match
           (if runtime_id env then
              postMessage env
                (FrameHover (match url with Some o => o | None => "" end)
                            (match url with Some _ => false | None => true end))
                s
            else Returned s)
         with
         | Returned s => Returned s
         | Thrown s => Returned (abortInspection s)
         end)) = posted s ++ msgs
    /\ List.length msgs <= 1.
Proof.
  unfold postMessage.
  destruct (negb (is_some (port s))), (runtime_id env),
    (postMessage_throws env);
    cbn [final]; rewrite ?abortInspection_eq; cbn [posted set_posted];
    first [ eexists [_]; split; [reflexivity | simpl; lia]
          | exists []; split; [now rewrite app_nil_r | simpl; lia] ].
Qed.

Lemma blank_render_posted frame response (s : State) :
  posted (snd (insertTooltip (Some frame) 1 0 response
                 (snd (insertOverlay frame (removeAllPopovers s)))))
  = posted s.
Proof.
  now rewrite insertOverlay_eq, insertTooltip_eq, removeAllPopovers_eq.
Qed.

Lemma frameStage_posted env event (s : State) :
  exists msgs,
    posted (final (frameStage env event s)) = posted s ++ msgs
    /\ List.length msgs <= 1.
Proof.
  unfold frameStage. cbv zeta.
  match goal with
  | |- context [truthy_string ?x] => destruct (truthy_string x) as [a|]
  end.
  - destruct (url_origin env a) as [o|].
    + exact (report_posted env (Some o) _).
    + exists []. split; [now rewrite app_nil_r | simpl; lia].
  - destruct (report_posted env None
                (snd (insertTooltip (Some (target event)) 1 0
                        (mkResponse true None None)
                        (snd (insertOverlay (target event)
                                (removeAllPopovers
                                   (set_hoveredFrame (Some (target event))
                                      (set_bodyHoverStateSent false s))))))))
      as (msgs & Hm & Hl).
    exists msgs. split; [|exact Hl].
    rewrite blank_render_posted in Hm. exact Hm.
Qed.

(** X12: one hover event posts at most one message, and never takes
    a posted message back: the trace after the event is the trace before
    it, possibly with one message appended. This holds whether the
    handler returns or leaves through an exception. *)
Theorem hover_posts_at_most_one env event (s : State) :
  exists msgs,
    posted (final (handleHoverEvent env event s)) = posted s ++ msgs
    /\ List.length msgs <= 1.
Proof.
  rewrite handleHoverEvent_stages.
  destruct (marked env event).
  - exists []. split; [now rewrite app_nil_r | simpl; lia].
  - destruct (String.eqb (tagName event) "IFRAME") eqn:Htag; cbn [negb].
    + rewrite bodyStage_skipped by tauto. cbn [bind].
      rewrite orb_false_r.
      destruct (isInspecting
                  (set_isHoveringOverPage true (set_hoveredFrame None s)));
        cbn [negb].
      * exact (frameStage_posted env event _).
      * exists []. split; [now rewrite app_nil_r | simpl; lia].
    + destruct (bodyStage_posted env true
                  (set_isHoveringOverPage true (set_hoveredFrame None s)))
        as (msgs & Hm & Hl).
      exists msgs. split; [|exact Hl].
      destruct (bodyStage env true
                  (set_isHoveringOverPage true (set_hoveredFrame None s)))
        as [s1|s1]; cbn [bind final] in *.
      * rewrite orb_true_r. exact Hm.
      * exact Hm.
Qed.

Lemma blank_render_port frame response (s : State) :
  port (snd (insertTooltip (Some frame) 1 0 response
               (snd (insertOverlay frame (removeAllPopovers s)))))
  = port s.
Proof.
  now rewrite insertOverlay_eq, insertTooltip_eq, removeAllPopovers_eq.
Qed.

(** X13: without a session ([port] is null) a hover event posts
    nothing and cannot fail: the handler returns, the trace of posted
    messages is unchanged and there is still no port. *)
Theorem hover_without_port_is_silent env event (s : State) :
  port s = None ->
  exists s',
    handleHoverEvent env event s = Returned s'
    /\ posted s' = posted s
    /\ port s' = None.
Proof.
  intros Hp. rewrite handleHoverEvent_stages.
  destruct (marked env event); [now eexists|].
  rewrite bodyStage_skipped by (right; left; exact Hp). cbn [bind].
  match goal with
  | |- context [if ?b then _ else _] => destruct b
  end; [now eexists|].
  unfold frameStage. cbv zeta.
  match goal with
  | |- context [truthy_string ?x] => destruct (truthy_string x) as [a|]
  end.
  - destruct (url_origin env a); cbn [port set_hoveredFrame set_bodyHoverStateSent
                                       set_isHoveringOverPage];
      rewrite ?Hp; cbn [is_some negb]; now eexists.
  - rewrite blank_render_port.
    cbn [port set_hoveredFrame set_bodyHoverStateSent set_isHoveringOverPage].
    rewrite Hp. cbn [is_some negb]. eexists. split; [reflexivity|].
    rewrite blank_render_posted, blank_render_port. now split.
Qed.

Lemma hover_without_port_is_silent_witness :
  exists s',
    handleHoverEvent (Scenario.page true) Scenario.overBlankFrame
      (onDisconnect Scenario.inspecting) = Returned s'
    /\ posted s' = posted (onDisconnect Scenario.inspecting)
    /\ port s' = None.
Proof.
  apply (hover_without_port_is_silent (Scenario.page true)
           Scenario.overBlankFrame (onDisconnect Scenario.inspecting)).
  reflexivity.
Defined.

(** X14: while the script is not inspecting, a hover event renders
    nothing, removes nothing and posts nothing, on a frame as on any
    other element. The state it leaves is the one it found with
    [hoveredFrame] reset to null and, when the target is not one of the
    extension's own elements, [isHoveringOverPage] set to true; no other
    field changes. *)
Theorem hover_while_idle_changes_no_popover env event (s : State) :
  isInspecting s = false ->
  exists s',
    handleHoverEvent env event s = Returned s'
    /\ s' = (if marked env event then set_hoveredFrame None s
             else set_isHoveringOverPage true (set_hoveredFrame None s))
    /\ isHoveringOverPage s'
       = (if marked env event then isHoveringOverPage s else true)
    /\ popovers s' = popovers s
    /\ scrollEventListeners s' = scrollEventListeners s
    /\ posted s' = posted s
    /\ bodyHoverStateSent s' = bodyHoverStateSent s
    /\ hoveredFrame s' = None
    /\ isInspecting s' = false.
Proof.
  intros Hi. rewrite handleHoverEvent_stages.
  destruct (marked env event); [eexists; now repeat split|].
  rewrite bodyStage_skipped by (left; exact Hi). cbn [bind].
  cbn [isInspecting set_isHoveringOverPage set_hoveredFrame].
  rewrite Hi. cbn [negb orb]. eexists. now repeat split.
Qed.

Lemma hover_while_idle_changes_no_popover_witness :
  exists s',
    handleHoverEvent (Scenario.page false) Scenario.overBlankFrame
      Scenario.connected = Returned s'
    /\ s' = set_isHoveringOverPage true
              (set_hoveredFrame None Scenario.connected)
    /\ isHoveringOverPage s' = true
    /\ popovers s' = popovers Scenario.connected
    /\ scrollEventListeners s' = scrollEventListeners Scenario.connected
    /\ posted s' = posted Scenario.connected
    /\ bodyHoverStateSent s' = bodyHoverStateSent Scenario.connected
    /\ hoveredFrame s' = None
    /\ isInspecting s' = false.
Proof.
  apply (hover_while_idle_changes_no_popover (Scenario.page false)
           Scenario.overBlankFrame Scenario.connected).
  reflexivity.
Defined.

Lemma frame_hover_enters_frameStage env event (s : State) :
  onFrame env event -> isInspecting s = true ->
  handleHoverEvent env event s
  = frameStage env event (set_isHoveringOverPage true (set_hoveredFrame None s)).
Proof.
  intros [Htag Hm] Hi. rewrite handleHoverEvent_stages, Hm, Htag.
  cbn [String.eqb Ascii.eqb Bool.eqb negb].
  rewrite bodyStage_skipped by tauto. cbn [bind].
  cbn [isInspecting set_isHoveringOverPage set_hoveredFrame].
  now rewrite Hi.
Qed.

(** X15: a hover over a frame whose [src] is not a URL the platform
    can parse (a relative address, say) is not reported and renders
    nothing: the handler returns with the posted trace and the popovers
    untouched. The frame is still recorded as hovered and the debounce
    flag is cleared. *)
Theorem frame_hover_with_bad_src_is_dropped env event (s : State) a :
  onFrame env event -> isInspecting s = true ->
  src event = Some a -> a <> "" -> a <> "about:blank" ->
  url_origin env a = None ->
  exists s',
    handleHoverEvent env event s = Returned s'
    /\ posted s' = posted s
    /\ popovers s' = popovers s
    /\ scrollEventListeners s' = scrollEventListeners s
    /\ hoveredFrame s' = Some (target event)
    /\ bodyHoverStateSent s' = false
    /\ isInspecting s' = true.
Proof.
  intros Hf Hi Hsrc Hne Hnb Hurl.
  rewrite (frame_hover_enters_frameStage env event s Hf Hi).
  unfold frameStage. cbv zeta. rewrite Hsrc.
  destruct (String.eqb_spec a "about:blank") as [->|_]; [contradiction|].
  unfold truthy_string.
  destruct (String.eqb_spec a "") as [->|_]; [contradiction|].
  rewrite Hurl. eexists. split; [reflexivity|]. now repeat split.
Qed.

Lemma frame_hover_with_bad_src_is_dropped_witness :
  exists s',
    handleHoverEvent (Scenario.page false)
      (mkMouseEvent 3 "IFRAME" [] (Some "/ads/banner.html"))
      Scenario.inspecting = Returned s'
    /\ posted s' = posted Scenario.inspecting
    /\ popovers s' = popovers Scenario.inspecting
    /\ scrollEventListeners s' = scrollEventListeners Scenario.inspecting
    /\ hoveredFrame s' = Some 3
    /\ bodyHoverStateSent s' = false
    /\ isInspecting s' = true.
Proof.
  apply (frame_hover_with_bad_src_is_dropped (Scenario.page false)
           (mkMouseEvent 3 "IFRAME" [] (Some "/ads/banner.html"))
           Scenario.inspecting "/ads/banner.html").
  - split; reflexivity.
  - reflexivity.
  - reflexivity.
  - discriminate.
  - discriminate.
  - reflexivity.
Defined.

(** X16: with a live session, a hover over a frame whose [src] parses
    posts the origin of that address with [isNullSetFromHover] false and
    renders nothing by itself: the popovers and the registry stay as
    they are until the panel answers. *)
Theorem frame_hover_with_src_reports_origin env event (s : State) p a o :
  live env -> onFrame env event ->
  isInspecting s = true -> port s = Some p ->
  src event = Some a -> a <> "" -> a <> "about:blank" ->
  url_origin env a = Some o ->
  exists s',
    handleHoverEvent env event s = Returned s'
    /\ posted s' = posted s ++ [FrameHover o false]
    /\ popovers s' = popovers s
    /\ scrollEventListeners s' = scrollEventListeners s
    /\ hoveredFrame s' = Some (target event)
    /\ isInspecting s' = true.
Proof.
  intros [Hid Ht] Hf Hi Hp Hsrc Hne Hnb Hurl.
  rewrite (frame_hover_enters_frameStage env event s Hf Hi).
  unfold frameStage. cbv zeta. rewrite Hsrc.
  destruct (String.eqb_spec a "about:blank") as [->|_]; [contradiction|].
  unfold truthy_string.
  destruct (String.eqb_spec a "") as [->|_]; [contradiction|].
  rewrite Hurl, Hid.
  cbn [port set_hoveredFrame set_bodyHoverStateSent set_isHoveringOverPage].
  rewrite Hp. cbn [is_some negb]. unfold postMessage. rewrite Ht.
  eexists. split; [reflexivity|]. now repeat split.
Qed.

Lemma frame_hover_with_src_reports_origin_witness :
  exists s',
    handleHoverEvent (Scenario.page false) Scenario.overAdFrame
      Scenario.inspecting = Returned s'
    /\ posted s' = posted Scenario.inspecting ++ [FrameHover "https://a.test" false]
    /\ popovers s' = popovers Scenario.inspecting
    /\ scrollEventListeners s' = scrollEventListeners Scenario.inspecting
    /\ hoveredFrame s' = Some 1
    /\ isInspecting s' = true.
Proof.
  apply (frame_hover_with_src_reports_origin (Scenario.page false)
           Scenario.overAdFrame Scenario.inspecting 7 "https://a.test/ad"
           "https://a.test").
  - split; reflexivity.
  - split; reflexivity.
  - reflexivity.
  - reflexivity.
  - reflexivity.
  - discriminate.
  - discriminate.
  - reflexivity.
Defined.

(** *** Commands *)

Lemma extends_others (s s' : State) : extends s s' -> others s' = others s.
Proof. now intros (ps & cbs & n & -> & _). Qed.

Lemma drained_others selected (s : State) :
  others (drained selected s) = others s.
Proof. unfold drained. now rewrite removeAllPopovers_eq. Qed.

Lemma insertPopovers_others env response (s : State) :
  others (insertPopovers env response s) = others s.
Proof.
  destruct (truthy_string (selectedFrame response)) as [selected|] eqn:Hsel.
  - assert (Hi : others (inserted env response selected s) = others s).
    { rewrite (extends_others _ _ (inserted_extends env response selected s)).
      apply drained_others. }
    rewrite <- Hi. unfold inserted.
    destruct (findSelectedFrameElements env selected) as [|f0 rest] eqn:Hfound.
    + unfold insertPopovers, drained. rewrite Hsel, Hfound.
      cbn [is_some negb]. rewrite andb_false_r. reflexivity.
    + rewrite (insertPopovers_selected _ _ _ _ _ _ Hsel Hfound).
      destruct (handlerCall env response selected s) as [pe s1]. cbn [snd].
      destruct (firstToolTip pe); [|reflexivity].
      match goal with
      | |- context [if ?b then _ else _] => destruct b
      end; reflexivity.
  - unfold insertPopovers. rewrite Hsel.
    now destruct (truthy_bool (removeAllFramePopovers response)).
Qed.

Lemma onMessage_flags env response (s : State) :
  bodyHoverStateSent (onMessage env response s) = bodyHoverStateSent s
  /\ hoveredFrame (onMessage env response s) = hoveredFrame s
  /\ isHoveringOverPage (onMessage env response s) = isHoveringOverPage s
  /\ port (onMessage env response s) = port s
  /\ posted (onMessage env response s) = posted s.
Proof.
  destruct (isInspecting_r response) eqn:Hr.
  - rewrite (onMessage_start _ _ _ Hr).
    assert (Hq : others (prepared s)
                 = (port s, true, isHoveringOverPage s, bodyHoverStateSent s,
                    hoveredFrame s,
                    filter foreign (listeners s) ++ hoverBindings, true,
                    posted s)).
    { now rewrite prepared_eq. }
    pose proof (insertPopovers_others env response (prepared s)) as Ho.
    rewrite Hq in Ho. clear Hq.
    generalize dependent (prepared s). intros q Ho.
    unfold others in Ho.
    injection Ho as H1 _ H3 H4 H5 _ _ H8. now repeat split.
  - unfold onMessage. rewrite Hr, abortInspection_eq. now repeat split.
Qed.

(** X17: commands never touch the debounce flag, the hovered frame,
    the pointer flag or the port. In particular a stop command followed
    by a start command does not re-arm the body-hover report: if one was
    sent before, the next hover over the page body posts nothing. *)
Theorem commands_keep_debounce_flag (commands : list (Env * ResponseType))
    env event (s : State) :
  bodyHoverStateSent s = true -> onBody env event ->
  let s1 := commandsRun commands s in
  bodyHoverStateSent s1 = true
  /\ hoveredFrame s1 = hoveredFrame s
  /\ port s1 = port s
  /\ exists s2,
       handleHoverEvent env event s1 = Returned s2 /\ posted s2 = posted s1.
Proof.
  intros Hb Hbody s1. subst s1.
  assert (H : bodyHoverStateSent (commandsRun commands s) = bodyHoverStateSent s
              /\ hoveredFrame (commandsRun commands s) = hoveredFrame s
              /\ port (commandsRun commands s) = port s).
  { unfold commandsRun. revert s Hb.
    induction commands as [|[e r] l IH]; intros s Hb; [now repeat split|].
    cbn [fold_left fst snd].
    destruct (onMessage_flags e r s) as (F1 & F2 & _ & F4 & _).
    destruct (IH (onMessage e r s)) as (G1 & G2 & G3); [congruence|].
    repeat split; congruence. }
  destruct H as (H1 & H2 & H3).
  split; [congruence|]. split; [exact H2|]. split; [exact H3|].
  destruct (body_hover_next env event (commandsRun commands s) Hbody)
    as (s2 & E & P & _); [congruence|].
  now exists s2.
Qed.

Lemma commands_keep_debounce_flag_witness :
  let env := Scenario.page false in
  let s := final (handleHoverEvent env Scenario.overBody Scenario.inspecting) in
  let s1 := commandsRun [(env, Scenario.stop); (env, Scenario.start)] s in
  bodyHoverStateSent s1 = true
  /\ hoveredFrame s1 = hoveredFrame s
  /\ port s1 = port s
  /\ exists s2,
       handleHoverEvent env Scenario.overBody s1 = Returned s2
       /\ posted s2 = posted s1.
Proof.
  intros env s.
  apply (commands_keep_debounce_flag
           [(env, Scenario.stop); (env, Scenario.start)] env
           Scenario.overBody s).
  - vm_compute. reflexivity.
  - split; reflexivity.
Defined.

(** X18: while the pointer is over the page, no command scrolls:
    whatever the page and the command, the trace of scrolls is the one
    before the command. *)
Theorem no_scroll_while_hovering env response (s : State) :
  isHoveringOverPage s = true ->
  scrolledIntoView (onMessage env response s) = scrolledIntoView s.
Proof.
  intros Hh. destruct (isInspecting_r response) eqn:Hr.
  - rewrite (onMessage_start _ _ _ Hr).
    assert (Hp : isHoveringOverPage (prepared s) = true
                 /\ scrolledIntoView (prepared s) = scrolledIntoView s).
    { now rewrite prepared_eq. }
    destruct Hp as [Hph Hps]. rewrite <- Hps. clear Hps.
    generalize dependent (prepared s). clear s Hh. intros q Hq.
    destruct (truthy_string (selectedFrame response)) as [selected|] eqn:Hsel.
    + destruct (findSelectedFrameElements env selected) as [|f0 rest] eqn:Hfound.
      * apply insertPopovers_no_scroll. right. now exists selected.
      * destruct (autoScroll_selected env response q selected f0 rest Hsel Hfound)
          as [[Hto _] [Hsame | (tip & _ & Hscr)]]; [exact Hsame|].
        assert (Hneq : scrolledIntoView (insertPopovers env response q)
                       <> scrolledIntoView q).
        { rewrite Hscr. apply app_one_neq. }
        destruct (Hto Hneq) as (t & _ & Hfalse & _). congruence.
    + apply insertPopovers_no_scroll. now left.
  - unfold onMessage. rewrite Hr, abortInspection_eq. reflexivity.
Qed.

Lemma no_scroll_while_hovering_witness :
  let env := Scenario.page false in
  let s := handleMouseMove env "mouseenter" Scenario.connected in
  scrolledIntoView (onMessage env Scenario.start s) = scrolledIntoView s.
Proof.
  intros env s.
  apply (no_scroll_while_hovering env Scenario.start s). reflexivity.
Defined.

(** *** Stopping *)

Lemma filter_foreign_twice (l : list Binding) :
  filter foreign (filter foreign l) = filter foreign l.
Proof.
  rewrite filter_filter. apply filter_ext. intros x. now destruct (foreign x).
Qed.

(** X19: a disconnect is a stop command plus forgetting the port: for
    every stop command, whatever else it carries and whatever the page,
    [onDisconnect] reaches the state of [onMessage] with the port set to
    null. Stopping twice is stopping once. *)
Theorem disconnect_is_stop env selected removeAll (s : State) :
  let stop := mkResponse false selected removeAll in
  onDisconnect s = set_port None (onMessage env stop s)
  /\ onMessage env stop (onMessage env stop s) = onMessage env stop s
  /\ onDisconnect (onMessage env stop s) = onDisconnect s.
Proof.
  intros stop. subst stop. unfold onDisconnect, onMessage. cbn [isInspecting_r].
  rewrite !abortInspection_eq.
  cbn [port isInspecting isHoveringOverPage bodyHoverStateSent
       scrollEventListeners hoveredFrame listeners windowScroll popovers
       highlighting posted scrolledIntoView discovered fresh
       set_port set_isInspecting].
  rewrite !removeEventListeners_eq.
  cbn [listeners set_port set_isInspecting].
  change (fun x => negb (existsb (binding_eqb x) hoverBindings)) with foreign.
  rewrite !filter_foreign_twice.
  repeat split.
Qed.

(** *** What every reachable state satisfies *)

Lemma steady_listeners (s : State) :
  steady s -> listeners s = hoverBindings \/ listeners s = [].
Proof. intros (Hl & _). rewrite Hl. destruct (isInspecting s); tauto. Qed.

Lemma abortInspection_bound (s : State) :
  listeners s = hoverBindings \/ listeners s = [] ->
  steady (abortInspection s).
Proof.
  intros Hl. unfold steady. rewrite abortInspection_eq.
  cbn [listeners isInspecting highlighting popovers].
  rewrite removeEventListeners_eq.
  destruct Hl as [-> | ->]; now repeat split.
Qed.

Lemma abortInspection_steady (s : State) :
  steady s -> steady (abortInspection s).
Proof. intros Hs. now apply abortInspection_bound, steady_listeners. Qed.

Lemma prepared_steady (s : State) :
  steady s ->
  listeners (prepared s) = hoverBindings
  /\ isInspecting (prepared s) = true /\ highlighting (prepared s) = true.
Proof.
  intros (Hl & _ & _). rewrite prepared_eq.
  cbn [listeners isInspecting highlighting]. rewrite Hl.
  now destruct (isInspecting s).
Qed.

Lemma onMessage_steady env response (s : State) :
  steady s -> steady (onMessage env response s).
Proof.
  intros Hs. destruct (isInspecting_r response) eqn:Hr.
  - rewrite (onMessage_start _ _ _ Hr).
    destruct (prepared_steady s Hs) as (Hl & Hi & Hh).
    pose proof (insertPopovers_others env response (prepared s)) as Ho.
    generalize dependent (prepared s). intros q Hl Hi Hh Ho.
    unfold others in Ho. injection Ho as _ Hi' _ _ _ Hl' Hh' _.
    unfold steady. rewrite Hi', Hl', Hh', Hi, Hl, Hh.
    repeat split. discriminate.
  - unfold onMessage. rewrite Hr.
    apply abortInspection_bound. exact (steady_listeners s Hs).
Qed.

Lemma bodyStage_steady env nonIframe (s : State) :
  steady s ->
  steady (final (bodyStage env nonIframe s))
  /\ isInspecting (final (bodyStage env nonIframe s)) = isInspecting s.
Proof.
  intros (Hl & Hh & Hp). unfold bodyStage, postMessage.
  destruct (negb (bodyHoverStateSent s) && isInspecting s && nonIframe
            && is_some (port s));
    [destruct (runtime_id env), (postMessage_throws env)|];
    cbn [bind final]; unfold steady;
    cbn [listeners isInspecting highlighting popovers set_posted
         set_bodyHoverStateSent Popovers.removeAllPopovers set_popovers];
    now repeat split.
Qed.

Lemma report_steady env url (s : State) :
  steady s ->
  steady (final
    (if negb (is_some (port s)) then Returned s
     else
       match
         (if runtime_id env then
            postMessage env
              (FrameHover (match url with Some o => o | None => "" end)
                          (match url with Some _ => false | None => true end))
              s
          else Returned s)
       with
       | Returned s => Returned s
       | Thrown s => Returned (abortInspection s)
       end)).
Proof.
  intros Hs. destruct (negb (is_some (port s))); [exact Hs|].
  unfold postMessage.
  destruct (runtime_id env), (postMessage_throws env); cbn [final];
    first [exact Hs | now apply abortInspection_steady].
Qed.

Lemma blank_render_steady frame response (s : State) :
  steady s -> isInspecting s = true ->
  steady (snd (insertTooltip (Some frame) 1 0 response
                 (snd (insertOverlay frame (removeAllPopovers s))))).
Proof.
  intros (Hl & Hh & _) Hi. unfold steady.
  rewrite insertOverlay_eq, insertTooltip_eq, removeAllPopovers_eq.
  cbn [snd extend listeners isInspecting highlighting popovers].
  rewrite Hi in *. repeat split; [exact Hl | exact Hh | discriminate].
Qed.

Lemma frameStage_steady env event (s : State) :
  steady s -> isInspecting s = true ->
  steady (final (frameStage env event s)).
Proof.
  intros Hs Hi. unfold frameStage. cbv zeta.
  assert (H0 : steady (set_hoveredFrame (Some (target event))
                         (set_bodyHoverStateSent false s))) by exact Hs.
  match goal with
  | |- context [truthy_string ?x] => destruct (truthy_string x) as [a|]
  end.
  - destruct (url_origin env a) as [o|]; [|exact H0].
    exact (report_steady env (Some o) _ H0).
  - exact (report_steady env None _
             (blank_render_steady (target event) (mkResponse true None None)
                _ H0 Hi)).
Qed.

Lemma handleHoverEvent_steady env event (s : State) :
  steady s -> steady (final (handleHoverEvent env event s)).
Proof.
  intros Hs. rewrite handleHoverEvent_stages.
  destruct (marked env event); [exact Hs|].
  destruct (bodyStage_steady env (negb (String.eqb (tagName event) "IFRAME"))
              (set_isHoveringOverPage true (set_hoveredFrame None s)) Hs)
    as [Hb Hi].
  destruct (bodyStage env (negb (String.eqb (tagName event) "IFRAME"))
              (set_isHoveringOverPage true (set_hoveredFrame None s)))
    as [s1|s1]; cbn [bind final] in *; [|exact Hb].
  destruct (isInspecting s1) eqn:Hi1; cbn [negb orb]; [|exact Hb].
  destruct (negb (String.eqb (tagName event) "IFRAME")); [exact Hb|].
  now apply frameStage_steady.
Qed.

Lemma session_steady (events : list Event) : steady (session events).
Proof.
  unfold session.
  assert (H : forall s, steady s -> steady (fold_left deliver events s)).
  { induction events as [|e events IH]; intros s Hs; [exact Hs|].
    apply IH. destruct e as [env name p|env response| |env event|env type];
      cbn [deliver].
    - unfold onConnect. now destruct (String.prefix _ _).
    - now apply onMessage_steady.
    - now apply abortInspection_steady.
    - now apply handleHoverEvent_steady.
    - unfold handleMouseMove.
      repeat match goal with
             | |- context [if ?b then _ else _] => destruct b
             end; exact Hs. }
  apply H. unfold steady. cbn. repeat split.
Qed.

(** X20: in every state the script can reach, whatever events were
    delivered, the five hover and visibility listeners are bound exactly
    while the script is inspecting, each once, and none otherwise; frame
    highlighting is on exactly while it is inspecting. *)
Theorem listeners_bound_iff_inspecting (events : list Event) :
  let s := session events in
  listeners s = (if isInspecting s then hoverBindings else [])
  /\ highlighting s = isInspecting s.
Proof.
  intros s. destruct (session_steady events) as (Hl & Hh & _). now split.
Qed.

(** X21: in every state the script can reach, no popover is rendered
    while the script is idle: what a stop command, a disconnect or a
    failed post leaves behind is an empty popover set, and nothing
    renders again before the next start command. *)
Theorem no_popover_while_idle (events : list Event) :
  isInspecting (session events) = false -> popovers (session events) = [].
Proof.
  destruct (session_steady events) as (_ & _ & Hp). exact Hp.
Qed.

Lemma no_popover_while_idle_witness :
  popovers
    (session [Connect (Scenario.page false) "webpage-1" 7;
              Message (Scenario.page false) Scenario.start;
              Hover (Scenario.page true) Scenario.overAdFrame]) = [].
Proof.
  apply (no_popover_while_idle
           [Connect (Scenario.page false) "webpage-1" 7;
            Message (Scenario.page false) Scenario.start;
            Hover (Scenario.page true) Scenario.overAdFrame]).
  reflexivity.
Defined.

(** X22: in every state the script can reach, the scroll listeners
    on the window are exactly the callbacks of the registry, in the same
    order: the class never leaves a scroll listener on the window that
    it could not remove later, and never keeps a callback that is not
    listening. *)
Theorem window_listeners_are_registry (events : list Event) :
  windowScroll (session events) = scrollEventListeners (session events).
Proof. exact (session_synced events). Qed.

End ControllerMore.

(* ================================================================= *)
(** ** The automatic scroll *)

Module ScrollFacts.

Import Controller Notions ControllerFacts ControllerMore.
Local Open Scope list_scope.

Local Arguments removeAllPopovers : simpl never.
Local Arguments insertOverlay : simpl never.
Local Arguments insertTooltip : simpl never.











End ScrollFacts.
